(** * GeoViz 3D: the excavation configurator's area model and PDF report

    A shallow embedding of [App.tsx] (both revisions found in the
    repository: the one with the "sfido" overlap allowance and the
    earlier one without it) and of the [types.ts] records it uses.

    - In the export, JavaScript numbers are modelled by [JS.num]: a
      finite value is an exact rational, and the three IEEE 754 special
      values [Infinity], [-Infinity] and [NaN] behave as the standard
      says.  Rounding, overflow and the sign of zero are outside that
      model.
    - Where rounding decides what holds (the totals of the area model),
      the same source lines are also taken over IEEE 754 doubles
      ([Double], [Sfido64], [Base64]).
    - The [jsPDF] object is a log of the method calls issued on it
      ([Pdf.op]); the export function is written in a writer monad over
      that log.  The library throws on a [NaN] argument ([Pdf.rejects]),
      which ends the export: [Pdf.executed] is the part of the log that
      took effect.  Rendering is outside the model.
    - Template literals are kept structured ([Pdf.tpart]), so number
      formatting ([toFixed]) stays symbolic. *)

From Stdlib Require Import ZArith QArith Qcanon List String Ascii Bool Lia.
From Stdlib Require Floats.SpecFloat.
Import ListNotations.

(* ===================================================================== *)
(** ** JavaScript numbers *)
(* ===================================================================== *)

Module JS.

Inductive num : Type :=
| Fin (q : Qc)
| PInf
| NInf
| NaN.

Definition int (z : Z) : num := Fin (Q2Qc (inject_Z z)).
Definition lit (q : Q) : num := Fin (Q2Qc q).

Definition is_finite (x : num) : bool :=
  match x with Fin _ => true | _ => false end.

Definition isNaN (x : num) : bool :=
  match x with NaN => true | _ => false end.

(** Sign of a number as a [comparison] with zero; [Eq] for zero (and,
    by convention, for [NaN], which never reaches the uses below). *)
Definition sgn (x : num) : comparison :=
  match x with
  | Fin q => Qccompare q (Q2Qc 0)
  | PInf => Gt
  | NInf => Lt
  | NaN => Eq
  end.

Definition sgn_mul (a b : comparison) : comparison :=
  match a, b with
  | Eq, _ | _, Eq => Eq
  | Gt, Gt | Lt, Lt => Gt
  | Gt, Lt | Lt, Gt => Lt
  end.

(** An infinity of the given sign; a zero sign stands for the invalid
    operations [0 * Infinity] and [0 / 0]. *)
Definition inf_of_sgn (c : comparison) : num :=
  match c with Gt => PInf | Lt => NInf | Eq => NaN end.

Definition neg (x : num) : num :=
  match x with
  | Fin q => Fin (Qcopp q)
  | PInf => NInf
  | NInf => PInf
  | NaN => NaN
  end.

Definition add (x y : num) : num :=
  match x, y with
  | NaN, _ | _, NaN => NaN
  | Fin a, Fin b => Fin (Qcplus a b)
  | PInf, NInf | NInf, PInf => NaN
  | PInf, _ | _, PInf => PInf
  | NInf, _ | _, NInf => NInf
  end.

Definition sub (x y : num) : num := add x (neg y).

Definition mul (x y : num) : num :=
  match x, y with
  | NaN, _ | _, NaN => NaN
  | Fin a, Fin b => Fin (Qcmult a b)
  | _, _ => inf_of_sgn (sgn_mul (sgn x) (sgn y))
  end.

Definition div (x y : num) : num :=
  match x, y with
  | NaN, _ | _, NaN => NaN
  | Fin a, Fin b =>
      if Qc_eq_bool b (Q2Qc 0) then inf_of_sgn (sgn x) else Fin (Qcdiv a b)
  | Fin _, _ => Fin (Q2Qc 0)
  | _, Fin b =>
      match Qccompare b (Q2Qc 0) with
      | Lt => neg x
      | _ => x
      end
  | _, _ => NaN
  end.

(** [x > y]; false as soon as one side is [NaN]. *)
Definition gtb (x y : num) : bool :=
  match x, y with
  | NaN, _ | _, NaN => false
  | Fin a, Fin b => match Qccompare a b with Gt => true | _ => false end
  | PInf, PInf => false
  | PInf, _ => true
  | _, NInf => match x with NInf => false | _ => true end
  | _, _ => false
  end.

(** [Math.min] and [Math.max] on two arguments. *)
Definition min (x y : num) : num :=
  match x, y with
  | NaN, _ | _, NaN => NaN
  | _, _ => if gtb x y then y else x
  end.

Definition max (x y : num) : num :=
  match x, y with
  | NaN, _ | _, NaN => NaN
  | _, _ => if gtb y x then y else x
  end.

(** *** Strings: [slice] and [parseInt] *)

(** [s.slice(from, to)] for [0 <= from <= to]. *)
Definition slice (s : string) (from to : nat) : string :=
  substring from (to - from) s.

(** White space and line terminators skipped by [parseInt], among the
    code units below 256. *)
Definition is_ws (c : ascii) : bool :=
  let n := nat_of_ascii c in
  ((n =? 9) || (n =? 10) || (n =? 11) || (n =? 12) || (n =? 13)
   || (n =? 32) || (n =? 160))%nat.

Fixpoint trimStart (s : string) : string :=
  match s with
  | String c s' => if is_ws c then trimStart s' else s
  | EmptyString => s
  end.

(** Value of a digit in bases up to 36. *)
Definition digit_val (c : ascii) : option Z :=
  let n := Z.of_nat (nat_of_ascii c) in
  if ((48 <=? n) && (n <=? 57))%Z then Some (n - 48)%Z
  else if ((97 <=? n) && (n <=? 122))%Z then Some (n - 87)%Z
  else if ((65 <=? n) && (n <=? 90))%Z then Some (n - 55)%Z
  else None.

(** The longest prefix of digits of the radix, read as an integer;
    [acc] is [None] until a first digit has been seen. *)
Fixpoint read_digits (radix : Z) (s : string) (acc : option Z) : option Z :=
  match s with
  | EmptyString => acc
  | String c s' =>
      match digit_val c with
      | Some d =>
          if (d <? radix)%Z
          then read_digits radix s'
                 (Some (radix * match acc with Some a => a | None => 0 end + d)%Z)
          else acc
      | None => acc
      end
  end.

Definition strip_sign (s : string) : Z * string :=
  match s with
  | String "-" r => ((-1)%Z, r)
  | String "+" r => (1%Z, r)
  | _ => (1%Z, s)
  end.

Definition strip_0x (s : string) : string :=
  match s with
  | String "0" (String "x" r) => r
  | String "0" (String "X" r) => r
  | _ => s
  end.

Definition has_0x (s : string) : bool :=
  match s with
  | String "0" (String "x" _) => true
  | String "0" (String "X" _) => true
  | _ => false
  end.

(** [parseInt(s, radix)]: leading white space, an optional sign, an
    optional [0x] when the radix is 16 (or 0), then the longest run of
    digits of the radix; [NaN] when that run is empty. *)
Definition parseInt (s : string) (radix : Z) : num :=
  let (sign, s1) := strip_sign (trimStart s) in
  if (negb (radix =? 0) && ((radix <? 2) || (36 <? radix)))%Z then NaN
  else
    let strip := (((radix =? 0) || (radix =? 16))%Z && has_0x s1)%bool in
    let r := if strip then 16%Z else if (radix =? 0)%Z then 10%Z else radix in
    let s2 := if strip then strip_0x s1 else s1 in
    match read_digits r s2 None with
    | Some z => int (sign * z)
    | None => NaN
    end.

End JS.

Export JS.

Declare Scope js_scope.
Delimit Scope js_scope with js.
Bind Scope js_scope with num.
Coercion int : Z >-> num.
Arguments lit q%_Q.
Notation "x + y" := (add x y) : js_scope.
Notation "x - y" := (sub x y) : js_scope.
Notation "x * y" := (mul x y) : js_scope.
Notation "x / y" := (div x y) : js_scope.
Notation "x >? y" := (gtb x y) : js_scope.


Local Open Scope string_scope.
Local Open Scope Z_scope.
Local Open Scope js_scope.

(* ===================================================================== *)
(** ** The jsPDF object as a log of calls *)
(* ===================================================================== *)

Module Pdf.

(** One piece of a template literal. *)
Inductive tpart : Type :=
| Lit (s : string)                 (* literal text *)
| Fixed (x : num) (digits : nat)   (* x.toFixed(digits) *)
| Str (x : num)                    (* a number interpolated as it is *)
| LocaleDate                       (* now.toLocaleDateString('it-IT') *)
| LocaleTime                       (* now.toLocaleTimeString('it-IT') *)
| IsoDate.                         (* now.toISOString().slice(0,10) *)

Definition tstring : Type := list tpart.

Definition point : Type := (num * num)%type.

(** The jsPDF methods the application calls. *)
Inductive op : Type :=
| setTextColor (r g b : num)
| setFontSize (size : num)
| setFont (family style : string)
| text (t : tstring) (x y : num) (align : option string)
| setFillColor (r g b : num)
| setDrawColor (r g b : num)
| setLineWidth (w : num)
| setLineDashPattern (pattern : list num) (phase : num)
| rect (x y w h : num) (style : string)
| roundedRect (x y w h rx ry : num) (style : string)
| line (x1 y1 x2 y2 : num)
| moveTo (x y : num)
| lineTo (x y : num)
| fill
| addPage
| save (filename : tstring).

(** A computation that calls methods of the document: its result and
    the calls it made, in order. *)
Definition M (A : Type) : Type := (A * list op)%type.

Definition ret {A : Type} (a : A) : M A := (a, []).

Definition bind {A B : Type} (m : M A) (k : A -> M B) : M B :=
  let r := k (fst m) in (fst r, (snd m ++ snd r)%list).

Definition call (o : op) : M unit := (tt, [o]).

Definition calls {A : Type} (m : M A) : list op := snd m.

(** [xs.forEach(x => body)], the body updating a local variable of the
    enclosing function (its value is threaded through). *)
Fixpoint forEachWith {A S : Type} (xs : list A) (body : A -> S -> M S) (s : S)
  : M S :=
  match xs with
  | [] => ret s
  | x :: xs' => bind (body x s) (forEachWith xs' body)
  end.

Definition forEach {A : Type} (xs : list A) (body : A -> M unit) : M unit :=
  forEachWith xs (fun x _ => body x) tt.

(** *** Reading a log back *)

(** The pages of the document: [new jsPDF] opens the first one and
    every [addPage] opens another; each page holds the calls made while
    it was the current page. *)
Fixpoint pages_from (cur : list op) (l : list op) : list (list op) :=
  match l with
  | [] => [rev cur]
  | addPage :: l' => rev cur :: pages_from [] l'
  | o :: l' => pages_from (o :: cur) l'
  end.

Definition pages (l : list op) : list (list op) := pages_from [] l.

Definition page (n : nat) (l : list op) : list op := nth n (pages l) [].

Definition numPages (l : list op) : nat := List.length (pages l).

(** The polygons filled by [moveTo]/[lineTo]/[fill], each with the fill
    colour in force at the [fill]. *)
Record filled : Type := { fill_rgb : num * num * num; fill_path : list point }.

Fixpoint fills_from (col : num * num * num) (path : list point) (l : list op)
  : list filled :=
  match l with
  | [] => []
  | setFillColor r g b :: l' => fills_from (r, g, b) path l'
  | moveTo x y :: l' => fills_from col [(x, y)] l'
  | lineTo x y :: l' => fills_from col (path ++ [(x, y)])%list l'
  | fill :: l' => {| fill_rgb := col; fill_path := path |} :: fills_from col [] l'
  | _ :: l' => fills_from col path l'
  end.

Definition fills (l : list op) : list filled := fills_from (int 0, int 0, int 0) [] l.

Definition is_fill_of (f : op) : bool :=
  match f with fill => true | _ => false end.

(** Does a text mention a given word (as a substring of one of its
    literal parts)? *)
Fixpoint is_infix (w s : string) : bool :=
  if String.prefix w s then true
  else match s with
       | EmptyString => false
       | String _ s' => is_infix w s'
       end.

Definition part_mentions (w : string) (p : tpart) : bool :=
  match p with Lit s => is_infix w s | _ => false end.

Definition mentions (w : string) (o : op) : bool :=
  match o with
  | text t _ _ _ => existsb (part_mentions w) t
  | _ => false
  end.

(** The numbers passed to a call. *)
Definition tpart_nums (p : tpart) : list num :=
  match p with Fixed x _ => [x] | Str x => [x] | _ => [] end.

Definition op_coords (o : op) : list num :=
  match o with
  | text _ x y _ => [x; y]
  | rect x y w h _ => [x; y; w; h]
  | roundedRect x y w h rx ry _ => [x; y; w; h; rx; ry]
  | line x1 y1 x2 y2 => [x1; y1; x2; y2]
  | moveTo x y => [x; y]
  | lineTo x y => [x; y]
  | setFontSize s => [s]
  | setLineWidth w => [w]
  | _ => []
  end.

Definition coords_finite (o : op) : bool := forallb is_finite (op_coords o).

(** *** What the library does with a call

    jsPDF checks the numbers it is handed.  [rect], [roundedRect],
    [line] and [text] throw ("Invalid arguments passed to jsPDF.rect",
    ...) when a coordinate or a size is [NaN]; colours, line widths,
    dash patterns and the points of a path go through its number
    formatter, which throws on [NaN] as well.  [Infinity] passes these
    checks, and [setFontSize] only stores its argument. *)
Definition op_numbers (o : op) : list num :=
  match o with
  | setTextColor r g b => [r; g; b]
  | setFillColor r g b => [r; g; b]
  | setDrawColor r g b => [r; g; b]
  | setLineWidth w => [w]
  | setLineDashPattern pattern phase => (pattern ++ [phase])%list
  | text _ x y _ => [x; y]
  | rect x y w h _ => [x; y; w; h]
  | roundedRect x y w h rx ry _ => [x; y; w; h; rx; ry]
  | line x1 y1 x2 y2 => [x1; y1; x2; y2]
  | moveTo x y => [x; y]
  | lineTo x y => [x; y]
  | _ => []
  end.

Definition rejects (o : op) : bool := existsb isNaN (op_numbers o).

(** [handleExportPDF] has no [try]: the exception of a rejected call
    ends it.  The calls that took effect are those issued before the
    first rejected one. *)
Fixpoint executed (l : list op) : list op :=
  match l with
  | [] => []
  | o :: l' => if rejects o then [] else o :: executed l'
  end.

End Pdf.

Export Pdf.

Declare Scope pdf_scope.
Delimit Scope pdf_scope with pdf.
Bind Scope pdf_scope with M.
Notation "x <- c1 ;; c2" := (bind c1 (fun x => c2))
  (at level 61, c1 at next level, right associativity) : pdf_scope.
Notation "c1 ;; c2" := (bind c1 (fun _ => c2))
  (at level 61, right associativity) : pdf_scope.
Local Open Scope pdf_scope.

(** What the page asks of its environment: the page size reported by
    jsPDF for the 'a4' format in millimetres, and the [Math] functions. *)
Record host : Type := {
  pageWidth : num;     (* pdf.internal.pageSize.getWidth() *)
  pageHeight : num;    (* pdf.internal.pageSize.getHeight() *)
  Math_PI : num;
  Math_cos : num -> num;
  Math_sin : num -> num;
  Math_atan2 : num -> num -> num
}.


(* ===================================================================== *)
(** ** The application with the overlap allowance ("sfido") *)
(* ===================================================================== *)

Module Sfido.

Record ExcavationDimensions : Type := {
  length : num;
  width : num;
  depth : num;
  sfido : num
}.

(** The colour state of the component; its [sfido] entry is not part of
    the declared interface, hence optional. *)
Record SurfaceColors : Type := {
  bottom : string;
  sides_long : string;
  sides_short : string;
  sfido_color : option string
}.

Record SurfaceData : Type := {
  id : string;
  label : string;
  area : num;
  color : string;
  dimensions : tstring
}.

(** Initial state of the component. *)
Definition initialDimensions : ExcavationDimensions :=
  {| length := 0; width := 0; depth := 0; sfido := 0 |}.

Definition initialColors : SurfaceColors :=
  {| bottom := "#3b82f6"; sides_long := "#ef4444"; sides_short := "#10b981";
     sfido_color := Some "#f59e0b" |}.

Definition surfaces (dims : ExcavationDimensions) (colors : SurfaceColors)
  : list SurfaceData :=
  let length := length dims in
  let width := width dims in
  let depth := depth dims in
  [ {| id := "bottom";
       label := "Superficie Inferiore (Base)";
       area := length * width;
       color := bottom colors;
       dimensions := [Fixed length 2; Lit " x "; Fixed width 2; Lit " m"] |};
    {| id := "sides_long";
       label := "Pareti Laterali Lunghe (x2)";
       area := length * depth;
       color := sides_long colors;
       dimensions := [Fixed length 2; Lit " x "; Fixed depth 2; Lit " m"] |};
    {| id := "sides_short";
       label := "Pareti Laterali Corte (x2)";
       area := width * depth;
       color := sides_short colors;
       dimensions := [Fixed width 2; Lit " x "; Fixed depth 2; Lit " m"] |} ].

(** [surfaces.reduce((acc, s) => ..., 0)] *)
Definition totalArea_of (surfaces : list SurfaceData) : num :=
  fold_left
    (fun acc s =>
       if String.eqb (id s) "bottom" then acc + area s
       else acc + area s * 2)
    surfaces (int 0).

Definition totalArea (dims : ExcavationDimensions) (colors : SurfaceColors) : num :=
  totalArea_of (surfaces dims colors).

Record SfidoData : Type := {
  sfidoLunghe : num;
  sfidoCorte : num;
  totale : num;
  sfido_width : num     (* the entry named [sfido] *)
}.

Definition sfidoData (dims : ExcavationDimensions) : SfidoData :=
  let length := length dims in
  let width := width dims in
  let sfido := sfido dims in
  let sfidoLunghe := length * sfido * 2 in
  let sfidoCorte := width * sfido * 2 in
  let totale := sfidoLunghe + sfidoCorte in
  {| sfidoLunghe := sfidoLunghe; sfidoCorte := sfidoCorte;
     totale := totale; sfido_width := sfido |}.

Definition totalAreaConSfido (dims : ExcavationDimensions) (colors : SurfaceColors)
  : num :=
  totalArea dims colors + totale (sfidoData dims).

(** [colors.sfido || '#f59e0b'] *)
Definition sfidoColor (colors : SurfaceColors) : string :=
  match sfido_color colors with
  | Some EmptyString | None => "#f59e0b"
  | Some c => c
  end.

Section ExportPDF.

Variable h : host.
Variable dimensions : ExcavationDimensions.
Variable colors : SurfaceColors.

Definition margin : num := 12.

Definition bottomColor : string := bottom colors.
Definition sideLongColor : string := sides_long colors.
Definition sideShortColor : string := sides_short colors.

Definition bottomArea : num := length dimensions * width dimensions.
Definition sideLongArea : num := length dimensions * depth dimensions.
Definition sideShortArea : num := width dimensions * depth dimensions.

(** *** Page 1: the scale of the unfolded drawing *)

Definition totalLayoutWidth : num :=
  (sfido dimensions * 2) + depth dimensions + length dimensions
  + depth dimensions + (sfido dimensions * 2).

Definition totalLayoutHeight : num :=
  (sfido dimensions * 2) + depth dimensions + width dimensions
  + depth dimensions + (sfido dimensions * 2).

Definition drawAreaWidth : num := pageWidth h - margin * 2.
Definition drawAreaHeight : num := 160.

Definition scaleX : num := drawAreaWidth / totalLayoutWidth.
Definition scaleY : num := drawAreaHeight / totalLayoutHeight.
Definition scale : num := min scaleX scaleY * lit 0.85.

Definition sLength : num := length dimensions * scale.
Definition sWidth : num := width dimensions * scale.
Definition sDepth : num := depth dimensions * scale.
Definition sSfido : num := sfido dimensions * scale.

Definition centerX : num := pageWidth h / 2.
(** [yPos] is 25 when the drawing is laid out. *)
Definition centerY : num := 25 + drawAreaHeight / 2.

Definition baseX : num := centerX - sLength / 2.
Definition baseY : num := centerY - sWidth / 2.

Definition drawSurface (x y w h : num) (color label : string) (area : num)
  : M unit :=
  call (setFillColor (parseInt (slice color 1 3) 16)
                     (parseInt (slice color 3 5) 16)
                     (parseInt (slice color 5 7) 16)) ;;
  call (rect x y w h "F") ;;
  call (setDrawColor 255 255 255) ;;
  call (setLineWidth (lit 0.4)) ;;
  call (rect x y w h "S") ;;
  let fontSize := min 9 (max 5 (min w h / 5)) in
  call (setTextColor 255 255 255) ;;
  call (setFont "helvetica" "bold") ;;
  call (setFontSize fontSize) ;;
  call (text [Lit label] (x + w / 2) (y + h / 2 - 2) (Some "center")) ;;
  call (setFontSize (fontSize * lit 1.2)) ;;
  call (text [Fixed area 1; Lit " m²"] (x + w / 2) (y + h / 2 + 4) (Some "center")).

Definition page1_title (yPos : num) : M unit :=
  call (setTextColor 30 41 59) ;;
  call (setFontSize 14) ;;
  call (setFont "helvetica" "bold") ;;
  call (text [Lit "GeoViz - Vista Sviluppata TNT"] margin (yPos + 5) None) ;;
  call (setFontSize 8) ;;
  call (setFont "helvetica" "normal") ;;
  call (setTextColor 100 116 139) ;;
  call (text [LocaleDate] (pageWidth h - margin - 20) (yPos + 5) None).

Definition page1_surfaces : M unit :=
  drawSurface baseX baseY sLength sWidth bottomColor "BASE" bottomArea ;;
  drawSurface baseX (baseY - sDepth) sLength sDepth sideLongColor
    "PARETE LUNGA" sideLongArea ;;
  drawSurface baseX (baseY + sWidth) sLength sDepth sideLongColor
    "PARETE LUNGA" sideLongArea ;;
  drawSurface (baseX - sDepth) baseY sDepth sWidth sideShortColor
    "P.CORTA" sideShortArea ;;
  drawSurface (baseX + sLength) baseY sDepth sWidth sideShortColor
    "P.CORTA" sideShortArea.

Definition page1_strips : M unit :=
  if (sfido dimensions >? 0) && (sSfido >? 2) then
    let sfR := parseInt (slice (sfidoColor colors) 1 3) 16 in
    let sfG := parseInt (slice (sfidoColor colors) 3 5) 16 in
    let sfB := parseInt (slice (sfidoColor colors) 5 7) 16 in
    call (setFillColor sfR sfG sfB) ;;
    call (setDrawColor (sfR - 40) (sfG - 40) (sfB - 40)) ;;
    call (setLineWidth (lit 0.3)) ;;
    call (rect baseX (baseY - sDepth - sSfido) sLength sSfido "FD") ;;
    call (rect baseX (baseY + sWidth + sDepth) sLength sSfido "FD") ;;
    call (rect (baseX - sDepth - sSfido) baseY sSfido sWidth "FD") ;;
    call (rect (baseX + sLength + sDepth) baseY sSfido sWidth "FD") ;;
    call (setTextColor 80 50 0) ;;
    call (setFontSize 6) ;;
    call (setFont "helvetica" "bold") ;;
    if sSfido >? 6 then
      call (text [Lit "SFIDO"] (baseX + sLength / 2)
              (baseY - sDepth - sSfido / 2) (Some "center")) ;;
      call (text [Lit "SFIDO"] (baseX + sLength / 2)
              (baseY + sWidth + sDepth + sSfido / 2 + 1) (Some "center"))
    else ret tt
  else ret tt.

Definition page1_foldlines : M unit :=
  call (setDrawColor 100 116 139) ;;
  call (setLineWidth (lit 0.3)) ;;
  call (setLineDashPattern [int 2; int 2] 0) ;;
  call (line baseX baseY (baseX + sLength) baseY) ;;
  call (line baseX (baseY + sWidth) (baseX + sLength) (baseY + sWidth)) ;;
  call (line baseX baseY baseX (baseY + sWidth)) ;;
  call (line (baseX + sLength) baseY (baseX + sLength) (baseY + sWidth)) ;;
  call (setLineDashPattern [] 0).

(** *** Page 1: the summary table *)

Record Row : Type := {
  row_color : string;
  row_name : string;
  row_dims : tstring;
  row_area : num;
  row_qty : num
}.

Definition rows : list Row :=
  let length := length dimensions in
  let width := width dimensions in
  let depth := depth dimensions in
  [ {| row_color := bottomColor; row_name := "Base";
       row_dims := [Fixed length 1; Lit "×"; Fixed width 1; Lit "m"];
       row_area := bottomArea; row_qty := 1 |};
    {| row_color := sideLongColor; row_name := "Pareti Lunghe";
       row_dims := [Fixed length 1; Lit "×"; Fixed depth 1; Lit "m"];
       row_area := sideLongArea; row_qty := 2 |};
    {| row_color := sideShortColor; row_name := "Pareti Corte";
       row_dims := [Fixed width 1; Lit "×"; Fixed depth 1; Lit "m"];
       row_area := sideShortArea; row_qty := 2 |} ].

(** From "TABELLA RIEPILOGO" to the subtotal; returns the new [yPos]. *)
Definition page1_table (yPos : num) : M num :=
  call (setTextColor 30 41 59) ;;
  call (setFontSize 11) ;;
  call (setFont "helvetica" "bold") ;;
  call (text [Lit "Riepilogo Superfici"] margin yPos None) ;;
  let yPos := yPos + 6 in
  call (setFillColor 241 245 249) ;;
  call (rect margin (yPos - 3) (pageWidth h - margin * 2) 6 "F") ;;
  call (setFontSize 8) ;;
  call (setTextColor 71 85 105) ;;
  call (text [Lit "Superficie"] (margin + 15) yPos None) ;;
  call (text [Lit "Dimensioni"] (margin + 55) yPos None) ;;
  call (text [Lit "Area"] (margin + 100) yPos None) ;;
  call (text [Lit "Qtà"] (margin + 130) yPos None) ;;
  call (text [Lit "Totale"] (margin + 150) yPos None) ;;
  let yPos := yPos + 6 in
  yPos <- forEachWith rows (fun r yPos =>
    call (setFillColor (parseInt (slice (row_color r) 1 3) 16)
                       (parseInt (slice (row_color r) 3 5) 16)
                       (parseInt (slice (row_color r) 5 7) 16)) ;;
    call (rect (margin + 3) (yPos - lit 2.5) 8 4 "F") ;;
    call (setTextColor 71 85 105) ;;
    call (setFont "helvetica" "normal") ;;
    call (text [Lit (row_name r)] (margin + 15) yPos None) ;;
    call (text (row_dims r) (margin + 55) yPos None) ;;
    call (text [Fixed (row_area r) 1; Lit " m²"] (margin + 100) yPos None) ;;
    call (text [Lit "×"; Str (row_qty r)] (margin + 130) yPos None) ;;
    call (setFont "helvetica" "bold") ;;
    call (text [Fixed (row_area r * row_qty r) 1; Lit " m²"] (margin + 150) yPos None) ;;
    ret (yPos + 5)) yPos ;;
  call (setDrawColor 200 200 200) ;;
  call (line margin yPos (pageWidth h - margin) yPos) ;;
  let yPos := yPos + 4 in
  call (setFont "helvetica" "normal") ;;
  call (text [Lit "Subtotale superfici:"] (margin + 55) yPos None) ;;
  call (setFont "helvetica" "bold") ;;
  call (text [Fixed (totalArea dimensions colors) 1; Lit " m²"] (margin + 150) yPos None) ;;
  ret (yPos + 8).

(** The "SFIDO" block of the summary; returns the new [yPos]. *)
Definition page1_sfido_summary (yPos : num) : M num :=
  let length := length dimensions in
  let width := width dimensions in
  let sfido := sfido dimensions in
  if sfido >? 0 then
    call (setFillColor 254 243 199) ;;
    call (rect margin (yPos - 3) (pageWidth h - margin * 2) 18 "F") ;;
    call (setTextColor 146 64 14) ;;
    call (setFont "helvetica" "bold") ;;
    call (setFontSize 9) ;;
    call (text [Lit "SFIDO ("; Str sfido; Lit "m sul bordo superiore)"]
            (margin + 5) (yPos + 2) None) ;;
    call (setFont "helvetica" "normal") ;;
    call (setFontSize 8) ;;
    call (text [Lit "Pareti lunghe: "; Fixed length 1; Lit "m × "; Str sfido;
                Lit "m × 2 = "; Fixed (sfidoLunghe (sfidoData dimensions)) 1;
                Lit " m²"] (margin + 5) (yPos + 8) None) ;;
    call (text [Lit "Pareti corte: "; Fixed width 1; Lit "m × "; Str sfido;
                Lit "m × 2 = "; Fixed (sfidoCorte (sfidoData dimensions)) 1;
                Lit " m²"] (margin + 5) (yPos + 13) None) ;;
    call (setFont "helvetica" "bold") ;;
    call (text [Lit "Totale sfido: "; Fixed (totale (sfidoData dimensions)) 1;
                Lit " m²"] (margin + 120) (yPos + 10) None) ;;
    ret (yPos + 22)
  else ret yPos.

(** "TOTALE FINALE" and the footer of page 1. *)
Definition page1_total (yPos : num) : M unit :=
  call (setFillColor 30 41 59) ;;
  call (roundedRect margin yPos (pageWidth h - margin * 2) 16 2 2 "F") ;;
  call (setTextColor 148 163 184) ;;
  call (setFontSize 8) ;;
  call (text [Lit "Superfici: "; Fixed (totalArea dimensions colors) 1;
              Lit " m² + Sfido: "; Fixed (totale (sfidoData dimensions)) 1;
              Lit " m²"] (margin + 5) (yPos + 6) None) ;;
  call (setTextColor 255 255 255) ;;
  call (setFont "helvetica" "bold") ;;
  call (setFontSize 10) ;;
  call (text [Lit "TOTALE TNT:"] (margin + 5) (yPos + 12) None) ;;
  call (setFontSize 16) ;;
  call (setTextColor 251 191 36) ;;
  call (text [Fixed (totalAreaConSfido dimensions colors) 1; Lit " m²"]
          (margin + 45) (yPos + 12) None) ;;
  call (setTextColor 148 163 184) ;;
  call (setFontSize 7) ;;
  call (text [Lit "Pagina 1/2"] (pageWidth h / 2) (pageHeight h - 5) (Some "center")).

Definition page1 : M unit :=
  let yPos := margin in
  page1_title yPos ;;
  (* yPos = 25 *)
  page1_surfaces ;;
  page1_strips ;;
  page1_foldlines ;;
  let yPos := centerY + drawAreaHeight / 2 + 10 in
  yPos <- page1_table yPos ;;
  yPos <- page1_sfido_summary yPos ;;
  page1_total yPos.

(** *** Page 2: the isometric view *)

Definition page2_title (yPos : num) : M unit :=
  call (setTextColor 30 41 59) ;;
  call (setFontSize 14) ;;
  call (setFont "helvetica" "bold") ;;
  call (text [Lit "GeoViz - Vista 3D Isometrica"] margin (yPos + 5) None) ;;
  call (setFontSize 8) ;;
  call (setFont "helvetica" "normal") ;;
  call (setTextColor 100 116 139) ;;
  call (text [LocaleDate] (pageWidth h - margin - 20) (yPos + 5) None).

Definition isoAngle : num := Math_PI h / 6.
Definition cos30 : num := Math_cos h isoAngle.
Definition sin30 : num := Math_sin h isoAngle.
Definition isoScale : num := 16.

Definition sL : num := length dimensions * isoScale.
Definition sW : num := width dimensions * isoScale.
Definition sD : num := depth dimensions * isoScale.
Definition sSfidoIso : num := sfido dimensions * isoScale.

Definition isoCenterX : num := pageWidth h / 2.
Definition isoCenterY : num := 130.

Definition toIso (x y z : num) : point :=
  (isoCenterX + (x - z) * cos30, isoCenterY - y + (x + z) * sin30).

Record Vertices : Type := {
  vA : point; vB : point; vC : point; vD : point;
  vE : point; vF : point; vG : point; vH : point
}.

Definition v : Vertices :=
  {| vA := toIso (neg sL / 2) 0 (neg sW / 2);
     vB := toIso (sL / 2) 0 (neg sW / 2);
     vC := toIso (sL / 2) 0 (sW / 2);
     vD := toIso (neg sL / 2) 0 (sW / 2);
     vE := toIso (neg sL / 2) sD (neg sW / 2);
     vF := toIso (sL / 2) sD (neg sW / 2);
     vG := toIso (sL / 2) sD (sW / 2);
     vH := toIso (neg sL / 2) sD (sW / 2) |}.

Definition fillPoly (pts : list point) (r g b : num) : M unit :=
  call (setFillColor r g b) ;;
  call (moveTo (fst (hd (NaN, NaN) pts)) (snd (hd (NaN, NaN) pts))) ;;
  forEach pts (fun p => call (lineTo (fst p) (snd p))) ;;
  call fill.

Definition page2_walls : M unit :=
  let sLR := parseInt (slice sideLongColor 1 3) 16 in
  let sLG := parseInt (slice sideLongColor 3 5) 16 in
  let sLB := parseInt (slice sideLongColor 5 7) 16 in
  fillPoly [vA v; vB v; vF v; vE v] sLR sLG sLB ;;
  let sSR := parseInt (slice sideShortColor 1 3) 16 in
  let sSG := parseInt (slice sideShortColor 3 5) 16 in
  let sSB := parseInt (slice sideShortColor 5 7) 16 in
  fillPoly [vA v; vD v; vH v; vE v] sSR sSG sSB ;;
  let bR := parseInt (slice bottomColor 1 3) 16 in
  let bG := parseInt (slice bottomColor 3 5) 16 in
  let bB := parseInt (slice bottomColor 5 7) 16 in
  fillPoly [vA v; vB v; vC v; vD v] bR bG bB ;;
  fillPoly [vB v; vC v; vG v; vF v]
    (min 255 (sSR + 30)) (min 255 (sSG + 30)) (min 255 (sSB + 30)) ;;
  fillPoly [vD v; vC v; vG v; vH v]
    (min 255 (sLR + 20)) (min 255 (sLG + 20)) (min 255 (sLB + 20)).

Record SfidoVertices : Type := {
  E_out : point; F_out : point; G_out : point; H_out : point;
  E_side : point; F_side : point; G_side : point; H_side : point
}.

Definition sfV : SfidoVertices :=
  {| E_out := toIso (neg sL / 2) sD (neg sW / 2 - sSfidoIso);
     F_out := toIso (sL / 2) sD (neg sW / 2 - sSfidoIso);
     G_out := toIso (sL / 2) sD (sW / 2 + sSfidoIso);
     H_out := toIso (neg sL / 2) sD (sW / 2 + sSfidoIso);
     E_side := toIso (neg sL / 2 - sSfidoIso) sD (neg sW / 2);
     F_side := toIso (sL / 2 + sSfidoIso) sD (neg sW / 2);
     G_side := toIso (sL / 2 + sSfidoIso) sD (sW / 2);
     H_side := toIso (neg sL / 2 - sSfidoIso) sD (sW / 2) |}.

Definition page2_sfido : M unit :=
  if sfido dimensions >? 0 then
    let sfR := parseInt (slice (sfidoColor colors) 1 3) 16 in
    let sfG := parseInt (slice (sfidoColor colors) 3 5) 16 in
    let sfB := parseInt (slice (sfidoColor colors) 5 7) 16 in
    fillPoly [vE v; vF v; F_out sfV; E_out sfV]
      (max 0 (sfR - 30)) (max 0 (sfG - 30)) (max 0 (sfB - 30)) ;;
    fillPoly [vE v; E_side sfV; H_side sfV; vH v]
      (max 0 (sfR - 15)) (max 0 (sfG - 15)) (max 0 (sfB - 15)) ;;
    fillPoly [vF v; vG v; G_side sfV; F_side sfV]
      (min 255 (sfR + 15)) (min 255 (sfG + 15)) (min 255 (sfB + 15)) ;;
    fillPoly [vH v; H_out sfV; G_out sfV; vG v] sfR sfG sfB ;;
    call (setDrawColor 100 70 0) ;;
    call (setLineWidth (lit 0.3)) ;;
    call (line (fst (E_out sfV)) (snd (E_out sfV)) (fst (F_out sfV)) (snd (F_out sfV))) ;;
    call (line (fst (F_side sfV)) (snd (F_side sfV)) (fst (G_side sfV)) (snd (G_side sfV))) ;;
    call (line (fst (G_out sfV)) (snd (G_out sfV)) (fst (H_out sfV)) (snd (H_out sfV))) ;;
    call (line (fst (H_side sfV)) (snd (H_side sfV)) (fst (E_side sfV)) (snd (E_side sfV)))
  else ret tt.

Definition edge (ab : point * point) : M unit :=
  let (a, b) := ab in call (line (fst a) (snd a) (fst b) (snd b)).

Definition page2_edges : M unit :=
  call (setDrawColor 40 40 40) ;;
  call (setLineWidth (lit 0.5)) ;;
  forEach [(vA v, vB v); (vB v, vC v); (vC v, vD v); (vD v, vA v)] edge ;;
  forEach [(vA v, vE v); (vB v, vF v); (vC v, vG v); (vD v, vH v)] edge ;;
  call (setLineDashPattern [int 2; int 1] 0) ;;
  call (setDrawColor 80 80 80) ;;
  forEach [(vE v, vF v); (vF v, vG v); (vG v, vH v); (vH v, vE v)] edge ;;
  call (setLineDashPattern [] 0).

Record LegendItem : Type := {
  item_color : string;
  item_name : string;
  item_area : num;
  item_qty : num
}.

Definition legendData : list LegendItem :=
  let base :=
    [ {| item_color := bottomColor; item_name := "Base";
         item_area := bottomArea; item_qty := 1 |};
      {| item_color := sideLongColor; item_name := "Pareti Lunghe";
         item_area := sideLongArea; item_qty := 2 |};
      {| item_color := sideShortColor; item_name := "Pareti Corte";
         item_area := sideShortArea; item_qty := 2 |} ] in
  if sfido dimensions >? 0 then
    (base ++ [ {| item_color := sfidoColor colors;
                  item_name := "Sfido (bordo sup.)";
                  item_area := totale (sfidoData dimensions);
                  item_qty := 1 |} ])%list
  else base.

(** The legend; [yPos] is 220 on entry; returns the new [yPos]. *)
Definition page2_legend (yPos : num) : M num :=
  call (setTextColor 30 41 59) ;;
  call (setFontSize 10) ;;
  call (setFont "helvetica" "bold") ;;
  call (text [Lit "Legenda Superfici"] margin yPos None) ;;
  let yPos := yPos + 8 in
  forEachWith legendData (fun item yPos =>
    call (setFillColor (parseInt (slice (item_color item) 1 3) 16)
                       (parseInt (slice (item_color item) 3 5) 16)
                       (parseInt (slice (item_color item) 5 7) 16)) ;;
    call (rect margin (yPos - lit 2.5) 12 5 "F") ;;
    call (setTextColor 71 85 105) ;;
    call (setFont "helvetica" "normal") ;;
    call (setFontSize 9) ;;
    call (text [Lit (item_name item)] (margin + 16) yPos None) ;;
    call (text [Fixed (item_area item * item_qty item) 1; Lit " m²"]
            (margin + 70) yPos None) ;;
    ret (yPos + 7)) yPos.

(** "Dimensioni", the footer of page 2, and the download. *)
Definition page2_dims (yPos : num) : M unit :=
  let length := length dimensions in
  let width := width dimensions in
  let depth := depth dimensions in
  let yPos := yPos + 5 in
  call (setFillColor 248 250 252) ;;
  call (roundedRect margin yPos (pageWidth h - margin * 2) 20 2 2 "F") ;;
  call (setTextColor 71 85 105) ;;
  call (setFontSize 9) ;;
  call (setFont "helvetica" "bold") ;;
  call (text [Lit "Dimensioni Scavo:"] (margin + 5) (yPos + 7) None) ;;
  call (setFont "helvetica" "normal") ;;
  call (text [Fixed length 1; Lit "m × "; Fixed width 1; Lit "m × ";
              Fixed depth 1; Lit "m (L×W×D)"] (margin + 45) (yPos + 7) None) ;;
  call (text [Lit "Volume: "; Fixed (length * width * depth) 1; Lit " m³"]
          (margin + 120) (yPos + 7) None) ;;
  call (setFont "helvetica" "bold") ;;
  call (setTextColor 79 70 229) ;;
  call (text [Lit "TOTALE TNT: "; Fixed (totalAreaConSfido dimensions colors) 1;
              Lit " m²"] (margin + 5) (yPos + 14) None) ;;
  call (setTextColor 148 163 184) ;;
  call (setFontSize 7) ;;
  call (setFont "helvetica" "normal") ;;
  call (text [Lit "Pagina 2/2 - GeoViz Dynamic"] (pageWidth h / 2)
          (pageHeight h - 5) (Some "center")) ;;
  call (save [Lit "GeoViz_Scavo_"; IsoDate; Lit ".pdf"]).

Definition page2 : M unit :=
  let yPos := margin in
  page2_title yPos ;;
  (* yPos = 30 *)
  page2_walls ;;
  page2_sfido ;;
  page2_edges ;;
  let yPos := 220 in
  yPos <- page2_legend yPos ;;
  page2_dims yPos.

Definition handleExportPDF : M unit :=
  page1 ;;
  call addPage ;;
  page2.

End ExportPDF.

(** The document an export leaves behind. *)
Definition exported (h : host) (d : ExcavationDimensions) (c : SurfaceColors)
  : list op :=
  calls (handleExportPDF h d c).

End Sfido.

(* ===================================================================== *)
(** ** The application without the overlap allowance *)
(* ===================================================================== *)

Module Base.

Record ExcavationDimensions : Type := {
  length : num;
  width : num;
  depth : num
}.

Record SurfaceColors : Type := {
  bottom : string;
  sides_long : string;
  sides_short : string
}.

Record SurfaceData : Type := {
  id : string;
  label : string;
  area : num;
  color : string;
  dimensions : tstring
}.

(** Initial state of the component. *)
Definition initialDimensions : ExcavationDimensions :=
  {| length := 4; width := 3; depth := lit 2.5 |}.

Definition initialColors : SurfaceColors :=
  {| bottom := "#3b82f6"; sides_long := "#ef4444"; sides_short := "#10b981" |}.

Definition surfaces (dimensions : ExcavationDimensions) (colors : SurfaceColors)
  : list SurfaceData :=
  [ {| id := "bottom";
       label := "Superficie Inferiore (Base)";
       area := length dimensions * width dimensions;
       color := bottom colors;
       dimensions := [Fixed (length dimensions) 2; Lit " x ";
                      Fixed (width dimensions) 2; Lit " m"] |};
    {| id := "sides_long";
       label := "Pareti Laterali Lunghe (x2)";
       area := length dimensions * depth dimensions;
       color := sides_long colors;
       dimensions := [Fixed (length dimensions) 2; Lit " x ";
                      Fixed (depth dimensions) 2; Lit " m"] |};
    {| id := "sides_short";
       label := "Pareti Laterali Corte (x2)";
       area := width dimensions * depth dimensions;
       color := sides_short colors;
       dimensions := [Fixed (width dimensions) 2; Lit " x ";
                      Fixed (depth dimensions) 2; Lit " m"] |} ].

Definition totalArea_of (surfaces : list SurfaceData) : num :=
  fold_left
    (fun acc s =>
       if String.eqb (id s) "bottom" then acc + area s
       else acc + area s * 2)
    surfaces (int 0).

Definition totalArea (dims : ExcavationDimensions) (colors : SurfaceColors) : num :=
  totalArea_of (surfaces dims colors).

Section ExportPDF.

Variable h : host.
Variable dimensions : ExcavationDimensions.
Variable colors : SurfaceColors.

Definition margin : num := 15.

Definition page_header (subtitle : string) : M unit :=
  call (setFillColor 79 70 229) ;;
  call (rect 0 0 (pageWidth h) 40 "F") ;;
  call (setTextColor 255 255 255) ;;
  call (setFontSize 22) ;;
  call (setFont "helvetica" "bold") ;;
  call (text [Lit "GeoViz Dynamic"] margin 18 None) ;;
  call (setFontSize 11) ;;
  call (setFont "helvetica" "normal") ;;
  call (text [Lit subtitle] margin 28 None).

Definition page1_header : M unit :=
  page_header "Configuratore Scavo 3D - Report Tecnico" ;;
  call (setFontSize 9) ;;
  call (text [Lit "Data: "; LocaleDate; Lit " - Ora: "; LocaleTime]
          (pageWidth h - margin - 55) 28 None).

(** The section title; [yPos] is 50 on entry; returns the new [yPos]. *)
Definition page1_section_title (yPos : num) : M num :=
  call (setTextColor 30 41 59) ;;
  call (setFontSize 14) ;;
  call (setFont "helvetica" "bold") ;;
  call (text [Lit "Vista Sviluppata delle Superfici TNT"] margin yPos None) ;;
  ret (yPos + 8).

(** *** Page 1: the scale of the unfolded drawing *)

Definition drawAreaWidth : num := pageWidth h - margin * 2.
Definition maxDrawHeight : num := 120.

Definition totalLayoutWidth : num :=
  depth dimensions + length dimensions + depth dimensions.
Definition totalLayoutHeight : num :=
  depth dimensions + width dimensions + depth dimensions.

Definition scaleX : num := drawAreaWidth / totalLayoutWidth.
Definition scaleY : num := maxDrawHeight / totalLayoutHeight.
Definition scale : num := min scaleX scaleY * lit 0.9.

Definition sLength : num := length dimensions * scale.
Definition sWidth : num := width dimensions * scale.
Definition sDepth : num := depth dimensions * scale.

Definition centerX : num := pageWidth h / 2.
(** [yPos] is 58 when the drawing is laid out. *)
Definition startY : num := 50 + 8 + 5.

Definition drawSurface (x y w h : num) (color label : string) (area : num)
  (dims : tstring) : M unit :=
  call (setFillColor (parseInt (slice color 1 3) 16)
                     (parseInt (slice color 3 5) 16)
                     (parseInt (slice color 5 7) 16)) ;;
  call (rect x y w h "F") ;;
  call (setDrawColor 255 255 255) ;;
  call (setLineWidth (lit 0.5)) ;;
  call (rect x y w h "S") ;;
  let textX := x + w / 2 in
  let textY := y + h / 2 in
  call (setTextColor 255 255 255) ;;
  call (setFont "helvetica" "bold") ;;
  let fontSize := min 10 (max 6 (min w h / 4)) in
  call (setFontSize fontSize) ;;
  call (text [Lit label] textX (textY - fontSize * lit 0.4) (Some "center")) ;;
  call (setFontSize (fontSize * lit 1.3)) ;;
  call (text [Fixed area 2; Lit " m²"] textX (textY + fontSize * lit 0.5)
          (Some "center")) ;;
  call (setFontSize (fontSize * lit 0.7)) ;;
  call (setFont "helvetica" "normal") ;;
  call (text dims textX (textY + fontSize * lit 1.2) (Some "center")).

Definition bottomColor : string := bottom colors.
Definition sideLongColor : string := sides_long colors.
Definition sideShortColor : string := sides_short colors.

Definition bottomArea : num := length dimensions * width dimensions.
Definition sideLongArea : num := length dimensions * depth dimensions.
Definition sideShortArea : num := width dimensions * depth dimensions.

Definition baseX : num := centerX - sLength / 2.
Definition baseY : num := startY + sDepth.

Definition page1_surfaces : M unit :=
  let length := length dimensions in
  let width := width dimensions in
  let depth := depth dimensions in
  drawSurface baseX baseY sLength sWidth bottomColor "BASE" bottomArea
    [Fixed length 1; Lit "m × "; Fixed width 1; Lit "m"] ;;
  let longWall1X := centerX - sLength / 2 in
  let longWall1Y := startY in
  drawSurface longWall1X longWall1Y sLength sDepth sideLongColor
    "PARETE LUNGA 1" sideLongArea
    [Fixed length 1; Lit "m × "; Fixed depth 1; Lit "m"] ;;
  let longWall2X := centerX - sLength / 2 in
  let longWall2Y := startY + sDepth + sWidth in
  drawSurface longWall2X longWall2Y sLength sDepth sideLongColor
    "PARETE LUNGA 2" sideLongArea
    [Fixed length 1; Lit "m × "; Fixed depth 1; Lit "m"] ;;
  let shortWall1X := centerX - sLength / 2 - sDepth in
  let shortWall1Y := startY + sDepth in
  drawSurface shortWall1X shortWall1Y sDepth sWidth sideShortColor
    "PARETE CORTA 1" sideShortArea
    [Fixed depth 1; Lit "m × "; Fixed width 1; Lit "m"] ;;
  let shortWall2X := centerX + sLength / 2 in
  let shortWall2Y := startY + sDepth in
  drawSurface shortWall2X shortWall2Y sDepth sWidth sideShortColor
    "PARETE CORTA 2" sideShortArea
    [Fixed depth 1; Lit "m × "; Fixed width 1; Lit "m"].

Definition page1_foldlines : M unit :=
  call (setDrawColor 100 116 139) ;;
  call (setLineWidth (lit 0.3)) ;;
  call (setLineDashPattern [int 2; int 2] 0) ;;
  call (line baseX baseY (baseX + sLength) baseY) ;;
  call (line baseX (baseY + sWidth) (baseX + sLength) (baseY + sWidth)) ;;
  call (line baseX baseY baseX (baseY + sWidth)) ;;
  call (line (baseX + sLength) baseY (baseX + sLength) (baseY + sWidth)) ;;
  call (setLineDashPattern [] 0).

(** *** Page 1: legend and summary *)

Record Row : Type := {
  row_color : string;
  row_name : string;
  row_dims : tstring;
  row_area : num;
  row_qty : num
}.

Definition surfaceData : list Row :=
  let length := length dimensions in
  let width := width dimensions in
  let depth := depth dimensions in
  [ {| row_color := bottomColor; row_name := "Base";
       row_dims := [Fixed length 1; Lit " × "; Fixed width 1; Lit " m"];
       row_area := bottomArea; row_qty := 1 |};
    {| row_color := sideLongColor; row_name := "Pareti Lunghe";
       row_dims := [Fixed length 1; Lit " × "; Fixed depth 1; Lit " m"];
       row_area := sideLongArea; row_qty := 2 |};
    {| row_color := sideShortColor; row_name := "Pareti Corte";
       row_dims := [Fixed width 1; Lit " × "; Fixed depth 1; Lit " m"];
       row_area := sideShortArea; row_qty := 2 |} ].

Definition page1_summary (yPos : num) : M unit :=
  call (setTextColor 30 41 59) ;;
  call (setFontSize 12) ;;
  call (setFont "helvetica" "bold") ;;
  call (text [Lit "Dimensioni Scavo"] margin yPos None) ;;
  let yPos := yPos + 7 in
  call (setFontSize 10) ;;
  call (setFont "helvetica" "normal") ;;
  call (setTextColor 71 85 105) ;;
  call (text [Lit "Lunghezza (L): "; Fixed (length dimensions) 2;
              Lit " m   |   Larghezza (W): "; Fixed (width dimensions) 2;
              Lit " m   |   Profondità (D): "; Fixed (depth dimensions) 2;
              Lit " m"] margin yPos None) ;;
  let yPos := yPos + 12 in
  call (setTextColor 30 41 59) ;;
  call (setFontSize 12) ;;
  call (setFont "helvetica" "bold") ;;
  call (text [Lit "Riepilogo Superfici TNT"] margin yPos None) ;;
  let yPos := yPos + 8 in
  call (setFontSize 9) ;;
  call (setFont "helvetica" "bold") ;;
  call (setFillColor 241 245 249) ;;
  call (rect margin (yPos - 4) (pageWidth h - margin * 2) 7 "F") ;;
  call (setTextColor 71 85 105) ;;
  call (text [Lit "Colore"] (margin + 3) yPos None) ;;
  call (text [Lit "Superficie"] (margin + 20) yPos None) ;;
  call (text [Lit "Dimensioni"] (margin + 75) yPos None) ;;
  call (text [Lit "Area unitaria"] (margin + 115) yPos None) ;;
  call (text [Lit "Qtà"] (margin + 150) yPos None) ;;
  call (text [Lit "Totale"] (margin + 165) yPos None) ;;
  let yPos := yPos + 8 in
  call (setFont "helvetica" "normal") ;;
  yPos <- forEachWith surfaceData (fun s yPos =>
    call (setFillColor (parseInt (slice (row_color s) 1 3) 16)
                       (parseInt (slice (row_color s) 3 5) 16)
                       (parseInt (slice (row_color s) 5 7) 16)) ;;
    call (rect (margin + 3) (yPos - 3) 10 5 "F") ;;
    call (setTextColor 71 85 105) ;;
    call (text [Lit (row_name s)] (margin + 20) yPos None) ;;
    call (text (row_dims s) (margin + 75) yPos None) ;;
    call (text [Fixed (row_area s) 2; Lit " m²"] (margin + 115) yPos None) ;;
    call (text [Lit "×"; Str (row_qty s)] (margin + 150) yPos None) ;;
    call (setFont "helvetica" "bold") ;;
    call (text [Fixed (row_area s * row_qty s) 2; Lit " m²"] (margin + 165) yPos None) ;;
    call (setFont "helvetica" "normal") ;;
    ret (yPos + 7)) yPos ;;
  let yPos := yPos + 5 in
  call (setFillColor 30 41 59) ;;
  call (roundedRect margin yPos (pageWidth h - margin * 2) 20 2 2 "F") ;;
  call (setTextColor 255 255 255) ;;
  call (setFontSize 10) ;;
  call (setFont "helvetica" "normal") ;;
  call (text [Lit "TOTALE FORNITURA TNT"] (margin + 8) (yPos + 8) None) ;;
  call (setFontSize 18) ;;
  call (setFont "helvetica" "bold") ;;
  call (text [Fixed (totalArea dimensions colors) 2; Lit " m²"]
          (margin + 8) (yPos + 16) None) ;;
  call (setFontSize 8) ;;
  call (setFont "helvetica" "italic") ;;
  call (setTextColor 148 163 184) ;;
  call (text [Lit "* Calcolo: 1 base + 2 pareti lunghe + 2 pareti corte"]
          (pageWidth h - margin - 65) (yPos + 16) None) ;;
  call (setTextColor 148 163 184) ;;
  call (setFontSize 7) ;;
  call (setFont "helvetica" "normal") ;;
  call (text [Lit "Pagina 1/2 - Vista Sviluppata"] (pageWidth h / 2)
          (pageHeight h - 8) (Some "center")).

Definition page1 : M unit :=
  page1_header ;;
  let yPos := 50 in
  yPos <- page1_section_title yPos ;;
  page1_surfaces ;;
  page1_foldlines ;;
  let yPos := startY + sDepth * 2 + sWidth + 15 in
  page1_summary yPos.

(** *** Page 2: the isometric view with arrows *)

Definition page2_header : M unit :=
  page_header "Vista 3D Isometrica con Quote" ;;
  call (setFontSize 9) ;;
  call (text [Lit "Data: "; LocaleDate] (pageWidth h - margin - 35) 28 None).

Definition isoAngle : num := Math_PI h / 6.
Definition cos30 : num := Math_cos h isoAngle.
Definition sin30 : num := Math_sin h isoAngle.
Definition isoScale : num := 12.

Definition sL : num := length dimensions * isoScale.
Definition sW : num := width dimensions * isoScale.
Definition sD : num := depth dimensions * isoScale.

Definition isoCenterX : num := pageWidth h / 2.
(** [yPos] is 50 when the drawing is laid out. *)
Definition isoCenterY : num := 50 + 70.

Definition toIso (x y z : num) : point :=
  let isoX := isoCenterX + (x - z) * cos30 in
  let isoY := isoCenterY - y + (x + z) * sin30 in
  (isoX, isoY).

Record Vertices : Type := {
  vA : point; vB : point; vC : point; vD : point;
  vE : point; vF : point; vG : point; vH : point
}.

Definition vertices : Vertices :=
  {| vA := toIso (neg sL / 2) 0 (neg sW / 2);
     vB := toIso (sL / 2) 0 (neg sW / 2);
     vC := toIso (sL / 2) 0 (sW / 2);
     vD := toIso (neg sL / 2) 0 (sW / 2);
     vE := toIso (neg sL / 2) sD (neg sW / 2);
     vF := toIso (sL / 2) sD (neg sW / 2);
     vG := toIso (sL / 2) sD (sW / 2);
     vH := toIso (neg sL / 2) sD (sW / 2) |}.

(** [pdf.moveTo(w[0][0], w[0][1]); w.forEach(v => pdf.lineTo(v[0], v[1]));
    pdf.fill()], written out for each wall in the source.  (The helper
    [drawFace] declared just before is never called.) *)
Definition fillPath (w : list point) : M unit :=
  call (moveTo (fst (hd (NaN, NaN) w)) (snd (hd (NaN, NaN) w))) ;;
  forEach w (fun v => call (lineTo (fst v) (snd v))) ;;
  call fill.

Definition page2_walls : M unit :=
  call (setFillColor (parseInt (slice sideLongColor 1 3) 16)
                     (parseInt (slice sideLongColor 3 5) 16)
                     (parseInt (slice sideLongColor 5 7) 16)) ;;
  let backWall := [vA vertices; vB vertices; vF vertices; vE vertices] in
  fillPath backWall ;;
  call (setFillColor (parseInt (slice sideShortColor 1 3) 16)
                     (parseInt (slice sideShortColor 3 5) 16)
                     (parseInt (slice sideShortColor 5 7) 16)) ;;
  let leftWall := [vA vertices; vD vertices; vH vertices; vE vertices] in
  fillPath leftWall ;;
  call (setFillColor (parseInt (slice bottomColor 1 3) 16)
                     (parseInt (slice bottomColor 3 5) 16)
                     (parseInt (slice bottomColor 5 7) 16)) ;;
  let baseFace := [vA vertices; vB vertices; vC vertices; vD vertices] in
  fillPath baseFace ;;
  call (setFillColor (min 255 (parseInt (slice sideShortColor 1 3) 16 + 30))
                     (min 255 (parseInt (slice sideShortColor 3 5) 16 + 30))
                     (min 255 (parseInt (slice sideShortColor 5 7) 16 + 30))) ;;
  let rightWall := [vB vertices; vC vertices; vG vertices; vF vertices] in
  fillPath rightWall ;;
  call (setFillColor (min 255 (parseInt (slice sideLongColor 1 3) 16 + 20))
                     (min 255 (parseInt (slice sideLongColor 3 5) 16 + 20))
                     (min 255 (parseInt (slice sideLongColor 5 7) 16 + 20))) ;;
  let frontWall := [vD vertices; vC vertices; vG vertices; vH vertices] in
  fillPath frontWall.

Definition edge (a b : point) : M unit :=
  call (line (fst a) (snd a) (fst b) (snd b)).

Definition page2_edges : M unit :=
  call (setDrawColor 50 50 50) ;;
  call (setLineWidth (lit 0.5)) ;;
  edge (vA vertices) (vB vertices) ;;
  edge (vB vertices) (vC vertices) ;;
  edge (vC vertices) (vD vertices) ;;
  edge (vD vertices) (vA vertices) ;;
  edge (vA vertices) (vE vertices) ;;
  edge (vB vertices) (vF vertices) ;;
  edge (vC vertices) (vG vertices) ;;
  edge (vD vertices) (vH vertices) ;;
  call (setLineDashPattern [int 2; int 1] 0) ;;
  call (setDrawColor 100 100 100) ;;
  edge (vE vertices) (vF vertices) ;;
  edge (vF vertices) (vG vertices) ;;
  edge (vG vertices) (vH vertices) ;;
  edge (vH vertices) (vE vertices) ;;
  call (setLineDashPattern [] 0).

Definition drawArrow (fromX fromY toX toY : num) (label : tstring)
  (labelOffsetX labelOffsetY : num) : M unit :=
  call (line fromX fromY toX toY) ;;
  let angle := Math_atan2 h (toY - fromY) (toX - fromX) in
  let arrowSize := int 2 in
  call (line toX toY
          (toX - arrowSize * Math_cos h (angle - Math_PI h / 6))
          (toY - arrowSize * Math_sin h (angle - Math_PI h / 6))) ;;
  call (line toX toY
          (toX - arrowSize * Math_cos h (angle + Math_PI h / 6))
          (toY - arrowSize * Math_sin h (angle + Math_PI h / 6))) ;;
  call (setTextColor 59 130 246) ;;
  call (setFontSize 11) ;;
  call (setFont "helvetica" "bold") ;;
  call (text label (fromX + labelOffsetX) (fromY + labelOffsetY) None).

(** "FRECCE E ANNOTAZIONI"; [yPos] is 50 throughout. *)
Definition page2_arrows (yPos : num) : M unit :=
  call (setDrawColor 59 130 246) ;;
  call (setLineWidth (lit 0.6)) ;;
  let baseCenter := toIso 0 0 0 in
  let backCenter := toIso 0 (sD / 2) (neg sW / 2) in
  let frontCenter := toIso 0 (sD / 2) (sW / 2) in
  let leftCenter := toIso (neg sL / 2) (sD / 2) 0 in
  let rightCenter := toIso (sL / 2) (sD / 2) 0 in
  drawArrow (margin + 10) (yPos + 10) (fst backCenter - 15) (snd backCenter - 5)
    [Fixed sideLongArea 2; Lit " m²"] (neg 5) (neg 3) ;;
  call (setFontSize 7) ;;
  call (setFont "helvetica" "normal") ;;
  call (text [Lit "Parete Lunga"] (margin + 5) (yPos + 17) None) ;;
  drawArrow (margin + 5) (isoCenterY + 20) (fst leftCenter - 5) (snd leftCenter)
    [Fixed sideShortArea 2; Lit " m²"] (neg 5) (neg 3) ;;
  call (setFontSize 7) ;;
  call (setFont "helvetica" "normal") ;;
  call (text [Lit "Parete Corta"] margin (isoCenterY + 27) None) ;;
  drawArrow isoCenterX (isoCenterY + sD / 2 + 35) (fst baseCenter)
    (snd baseCenter + 10) [Fixed bottomArea 2; Lit " m²"] (neg 12) 12 ;;
  call (setFontSize 7) ;;
  call (setFont "helvetica" "normal") ;;
  call (text [Lit "Base"] (isoCenterX - 5) (isoCenterY + sD / 2 + 48) None) ;;
  drawArrow (pageWidth h - margin - 5) (isoCenterY - 10) (fst rightCenter + 10)
    (snd rightCenter) [Fixed sideShortArea 2; Lit " m²"] (neg 25) (neg 3) ;;
  call (setFontSize 7) ;;
  call (setFont "helvetica" "normal") ;;
  call (text [Lit "Parete Corta"] (pageWidth h - margin - 22) (isoCenterY - 3) None) ;;
  drawArrow (pageWidth h - margin - 10) (isoCenterY + 45) (fst frontCenter + 15)
    (snd frontCenter + 5) [Fixed sideLongArea 2; Lit " m²"] (neg 30) (neg 3) ;;
  call (setFontSize 7) ;;
  call (setFont "helvetica" "normal") ;;
  call (text [Lit "Parete Lunga"] (pageWidth h - margin - 25) (isoCenterY + 52) None) ;;
  call (setTextColor 100 116 139) ;;
  call (setFontSize 8) ;;
  call (setFont "helvetica" "italic") ;;
  let topCenter := toIso 0 sD 0 in
  call (text [Lit "BOCCA DI SCAVO (APERTA)"] (fst topCenter - 25)
          (snd topCenter - 8) None).

Record LegendItem : Type := { item_color : string; item_name : string }.

Definition legendItems : list LegendItem :=
  [ {| item_color := bottomColor; item_name := "Base" |};
    {| item_color := sideLongColor; item_name := "Pareti Lunghe" |};
    {| item_color := sideShortColor; item_name := "Pareti Corte" |} ].

(** "RIEPILOGO SPECIFICHE", the footer of page 2, and the download. *)
Definition page2_specs (yPos : num) : M unit :=
  let length := length dimensions in
  let width := width dimensions in
  let depth := depth dimensions in
  call (setTextColor 30 41 59) ;;
  call (setFontSize 12) ;;
  call (setFont "helvetica" "bold") ;;
  call (text [Lit "Specifiche Tecniche"] margin yPos None) ;;
  let yPos := yPos + 8 in
  call (setFillColor 248 250 252) ;;
  call (roundedRect margin (yPos - 3) (pageWidth h - margin * 2) 28 2 2 "F") ;;
  call (setFontSize 9) ;;
  call (setFont "helvetica" "normal") ;;
  call (setTextColor 71 85 105) ;;
  let specY := yPos + 4 in
  call (text [Lit "Dimensioni:"] (margin + 5) specY None) ;;
  call (setFont "helvetica" "bold") ;;
  call (text [Fixed length 2; Lit "m × "; Fixed width 2; Lit "m × ";
              Fixed depth 2; Lit "m (L×W×D)"] (margin + 30) specY None) ;;
  let volume := length * width * depth in
  call (setFont "helvetica" "normal") ;;
  call (text [Lit "Volume:"] (margin + 110) specY None) ;;
  call (setFont "helvetica" "bold") ;;
  call (text [Fixed volume 2; Lit " m³"] (margin + 128) specY None) ;;
  call (setFont "helvetica" "normal") ;;
  call (text [Lit "Superficie TNT Totale:"] (margin + 5) (specY + 8) None) ;;
  call (setFont "helvetica" "bold") ;;
  call (setTextColor 79 70 229) ;;
  call (text [Fixed (totalArea dimensions colors) 2; Lit " m²"]
          (margin + 45) (specY + 8) None) ;;
  call (setTextColor 71 85 105) ;;
  call (setFont "helvetica" "normal") ;;
  call (text [Lit "(1 base + 2 pareti lunghe + 2 pareti corte)"]
          (margin + 65) (specY + 8) None) ;;
  let yPos := specY + 18 in
  call (text [Lit "Legenda:"] (margin + 5) yPos None) ;;
  let legendX := margin + 28 in
  forEachWith legendItems (fun item legendX =>
    call (setFillColor (parseInt (slice (item_color item) 1 3) 16)
                       (parseInt (slice (item_color item) 3 5) 16)
                       (parseInt (slice (item_color item) 5 7) 16)) ;;
    call (rect legendX (yPos - 3) 8 4 "F") ;;
    call (setTextColor 71 85 105) ;;
    call (text [Lit (item_name item)] (legendX + 10) yPos None) ;;
    ret (legendX + 45)) legendX ;;
  call (setTextColor 148 163 184) ;;
  call (setFontSize 7) ;;
  call (setFont "helvetica" "normal") ;;
  call (text [Lit "Pagina 2/2 - Vista 3D Isometrica | Documento generato da GeoViz Dynamic"]
          (pageWidth h / 2) (pageHeight h - 8) (Some "center")) ;;
  call (save [Lit "GeoViz_Scavo_"; IsoDate; Lit ".pdf"]).

Definition page2 : M unit :=
  page2_header ;;
  let yPos := 50 in
  page2_walls ;;
  page2_edges ;;
  page2_arrows yPos ;;
  let yPos := isoCenterY + 80 in
  page2_specs yPos.

Definition handleExportPDF : M unit :=
  page1 ;;
  call addPage ;;
  page2.

End ExportPDF.

(** The document an export leaves behind. *)
Definition exported (h : host) (d : ExcavationDimensions) (c : SurfaceColors)
  : list op :=
  calls (handleExportPDF h d c).

End Base.

(* ===================================================================== *)
(** ** IEEE 754 double precision *)
(* ===================================================================== *)

(** The numbers of the program as they are: binary64 with rounding to
    nearest, ties to even, from the Standard Library's executable
    specification of IEEE 754.  Used for the area model, where rounding
    decides what holds. *)
Module Double.

Definition prec : Z := 53.
Definition emax : Z := 1024.

Definition double : Type := SpecFloat.spec_float.

Definition of_Z (z : Z) : double := SpecFloat.binary_normalize prec emax z 0 false.

Definition add (x y : double) : double := SpecFloat.SFadd prec emax x y.
Definition mul (x y : double) : double := SpecFloat.SFmul prec emax x y.
Definition div (x y : double) : double := SpecFloat.SFdiv prec emax x y.

(** The number a decimal numeral stands for, [n] being its digits and
    [k] the count of those after the point ([dec 15 1] is [1.5]): the
    double nearest to [n / 10^k], for [n] and [10^k] below [2^53]. *)
Definition dec (n : Z) (k : nat) : double := div (of_Z n) (of_Z (10 ^ Z.of_nat k)).

End Double.

Declare Scope double_scope.
Delimit Scope double_scope with dbl.
Notation "x + y" := (Double.add x y) : double_scope.
Notation "x * y" := (Double.mul x y) : double_scope.

(* ===================================================================== *)
(** ** The area model in double precision *)
(* ===================================================================== *)

(** [surfaces], [totalArea], [sfidoData] and [totalAreaConSfido] of the
    application with overlap, over doubles.  Of a surface only the id
    and the area enter the sums. *)
Module Sfido64.

Import Double.

Record ExcavationDimensions : Type := {
  length : double;
  width : double;
  depth : double;
  sfido : double
}.

Record SurfaceData : Type := {
  id : string;
  area : double
}.

Definition surfaces (dims : ExcavationDimensions) : list SurfaceData :=
  let length := length dims in
  let width := width dims in
  let depth := depth dims in
  [ {| id := "bottom"; area := (length * width)%dbl |};
    {| id := "sides_long"; area := (length * depth)%dbl |};
    {| id := "sides_short"; area := (width * depth)%dbl |} ].

(** [surfaces.reduce((acc, s) => ..., 0)] *)
Definition totalArea_of (surfaces : list SurfaceData) : double :=
  fold_left
    (fun acc s =>
       if String.eqb (id s) "bottom" then (acc + area s)%dbl
       else (acc + area s * of_Z 2)%dbl)
    surfaces (of_Z 0).

Definition totalArea (dims : ExcavationDimensions) : double :=
  totalArea_of (surfaces dims).

Record SfidoData : Type := {
  sfidoLunghe : double;
  sfidoCorte : double;
  totale : double;
  sfido_width : double     (* the entry named [sfido] *)
}.

Definition sfidoData (dims : ExcavationDimensions) : SfidoData :=
  let length := length dims in
  let width := width dims in
  let sfido := sfido dims in
  let sfidoLunghe := (length * sfido * of_Z 2)%dbl in
  let sfidoCorte := (width * sfido * of_Z 2)%dbl in
  let totale := (sfidoLunghe + sfidoCorte)%dbl in
  {| sfidoLunghe := sfidoLunghe; sfidoCorte := sfidoCorte;
     totale := totale; sfido_width := sfido |}.

Definition totalAreaConSfido (dims : ExcavationDimensions) : double :=
  (totalArea dims + totale (sfidoData dims))%dbl.

End Sfido64.

(** The same of the application without overlap. *)
Module Base64.

Import Double.

Record ExcavationDimensions : Type := {
  length : double;
  width : double;
  depth : double
}.

Record SurfaceData : Type := {
  id : string;
  area : double
}.

Definition surfaces (dimensions : ExcavationDimensions) : list SurfaceData :=
  [ {| id := "bottom"; area := (length dimensions * width dimensions)%dbl |};
    {| id := "sides_long"; area := (length dimensions * depth dimensions)%dbl |};
    {| id := "sides_short"; area := (width dimensions * depth dimensions)%dbl |} ].

Definition totalArea_of (surfaces : list SurfaceData) : double :=
  fold_left
    (fun acc s =>
       if String.eqb (id s) "bottom" then (acc + area s)%dbl
       else (acc + area s * of_Z 2)%dbl)
    surfaces (of_Z 0).

Definition totalArea (dims : ExcavationDimensions) : double :=
  totalArea_of (surfaces dims).

End Base64.

(* ===================================================================== *)
(** ** The side panel: editing dimensions and colours *)
(* ===================================================================== *)

Module Sidebar.

(** [keyof ExcavationDimensions] *)
Inductive DimKey : Type := key_length | key_width | key_depth | key_sfido.

(** [keyof SurfaceColors], with the overlap entry the panel also edits. *)
Inductive ColorKey : Type :=
  key_bottom | key_sides_long | key_sides_short | key_sfido_color.

Definition get (key : DimKey) (d : Sfido.ExcavationDimensions) : num :=
  match key with
  | key_length => Sfido.length d
  | key_width => Sfido.width d
  | key_depth => Sfido.depth d
  | key_sfido => Sfido.sfido d
  end.

(** [{ ...dimensions, [key]: num }] *)
Definition set (key : DimKey) (num : num) (d : Sfido.ExcavationDimensions)
  : Sfido.ExcavationDimensions :=
  match key with
  | key_length =>
      {| Sfido.length := num; Sfido.width := Sfido.width d;
         Sfido.depth := Sfido.depth d; Sfido.sfido := Sfido.sfido d |}
  | key_width =>
      {| Sfido.length := Sfido.length d; Sfido.width := num;
         Sfido.depth := Sfido.depth d; Sfido.sfido := Sfido.sfido d |}
  | key_depth =>
      {| Sfido.length := Sfido.length d; Sfido.width := Sfido.width d;
         Sfido.depth := num; Sfido.sfido := Sfido.sfido d |}
  | key_sfido =>
      {| Sfido.length := Sfido.length d; Sfido.width := Sfido.width d;
         Sfido.depth := Sfido.depth d; Sfido.sfido := num |}
  end.

(** [x || 0] on a number: zero and [NaN] are falsy. *)
Definition or_zero (x : num) : num :=
  match x with
  | NaN => 0
  | Fin q => if Qc_eq_bool q (Q2Qc 0) then 0 else x
  | _ => x
  end.

Section Handlers.

(** The built-in [parseFloat]. *)
Variable parseFloat : string -> num.

(** The dimensions handed to [onDimensionsChange]. *)
Definition handleDimChange (dimensions : Sfido.ExcavationDimensions)
  (key : DimKey) (value : string) : Sfido.ExcavationDimensions :=
  let num := or_zero (parseFloat value) in
  set key num dimensions.

End Handlers.

(** The colours handed to [onColorsChange]. *)
Definition handleColorChange (colors : Sfido.SurfaceColors) (key : ColorKey)
  (value : string) : Sfido.SurfaceColors :=
  match key with
  | key_bottom =>
      {| Sfido.bottom := value; Sfido.sides_long := Sfido.sides_long colors;
         Sfido.sides_short := Sfido.sides_short colors;
         Sfido.sfido_color := Sfido.sfido_color colors |}
  | key_sides_long =>
      {| Sfido.bottom := Sfido.bottom colors; Sfido.sides_long := value;
         Sfido.sides_short := Sfido.sides_short colors;
         Sfido.sfido_color := Sfido.sfido_color colors |}
  | key_sides_short =>
      {| Sfido.bottom := Sfido.bottom colors;
         Sfido.sides_long := Sfido.sides_long colors;
         Sfido.sides_short := value;
         Sfido.sfido_color := Sfido.sfido_color colors |}
  | key_sfido_color =>
      {| Sfido.bottom := Sfido.bottom colors;
         Sfido.sides_long := Sfido.sides_long colors;
         Sfido.sides_short := Sfido.sides_short colors;
         Sfido.sfido_color := Some value |}
  end.

End Sidebar.

(* ===================================================================== *)
(** ** The 3D model: label sizes and the lookup of surfaces *)
(* ===================================================================== *)

Module ExcavationModel.

Definition getFontSize (area : num) : num :=
  min (lit 0.35) (max (lit 0.15) (area * lit 0.025)).

(** [surfaces.find(s => s.id === id)] *)
Definition find_surface (id : string) (surfaces : list Base.SurfaceData)
  : option Base.SurfaceData :=
  find (fun s => String.eqb (Base.id s) id) surfaces.

End ExcavationModel.

(* ===================================================================== *)
(** ** Vocabulary of the properties *)
(* ===================================================================== *)

(** A host for concrete runs: the A4 page in millimetres as jsPDF
    reports it (595.28 x 841.89 points, 72/25.4 points to the
    millimetre) and the [Math] functions by short rational
    approximations; no result below depends on their precision. *)
Definition approx_pi : num := lit (355 # 113).

Definition approx_cos (x : num) : num :=
  let x2 := x * x in
  1 - x2 / 2 + x2 * x2 / 24 - x2 * x2 * x2 / 720.

Definition approx_sin (x : num) : num :=
  let x2 := x * x in
  x - x * x2 / 6 + x * x2 * x2 / 120 - x * x2 * x2 * x2 / 5040.

Definition approx_atan (t : num) : num :=
  if t >? 1 then approx_pi / 2 - t / (t * t + lit 0.28)
  else if neg 1 >? t then neg approx_pi / 2 - t / (t * t + lit 0.28)
  else t / (1 + lit 0.28 * t * t).

Definition approx_atan2 (y x : num) : num :=
  if x >? 0 then approx_atan (y / x)
  else if 0 >? x then
    if 0 >? y then approx_atan (y / x) - approx_pi
    else approx_atan (y / x) + approx_pi
  else if y >? 0 then approx_pi / 2
  else if 0 >? y then neg approx_pi / 2
  else 0.

Definition a4 : host :=
  {| pageWidth := lit 595.28 / (72 / lit 25.4);
     pageHeight := lit 841.89 / (72 / lit 25.4);
     Math_PI := approx_pi;
     Math_cos := approx_cos;
     Math_sin := approx_sin;
     Math_atan2 := approx_atan2 |}.

(** The standard box of the specification's scenarios, with and without
    an overlap of 0.2 m. *)
Definition box (sf : num) : Sfido.ExcavationDimensions :=
  {| Sfido.length := 4; Sfido.width := 3; Sfido.depth := lit 2.5;
     Sfido.sfido := sf |}.

Definition zero_base : Base.ExcavationDimensions :=
  {| Base.length := 0; Base.width := 0; Base.depth := 0 |}.




(** Length and width exchanged. *)
Definition swap_lw (d : Sfido.ExcavationDimensions) : Sfido.ExcavationDimensions :=
  {| Sfido.length := Sfido.width d; Sfido.width := Sfido.length d;
     Sfido.depth := Sfido.depth d; Sfido.sfido := Sfido.sfido d |}.

Definition swap_lw_base (d : Base.ExcavationDimensions) : Base.ExcavationDimensions :=
  {| Base.length := Base.width d; Base.width := Base.length d;
     Base.depth := Base.depth d |}.



(** Dimensions in doubles from decimal numerals with one digit after
    the point, given by their digits: [box64 1 10 15 0] is 0.1 by 1.0
    by 1.5 with no overlap. *)
Definition box64 (l w d sf : Z) : Sfido64.ExcavationDimensions :=
  {| Sfido64.length := Double.dec l 1; Sfido64.width := Double.dec w 1;
     Sfido64.depth := Double.dec d 1; Sfido64.sfido := Double.dec sf 1 |}.


(** A colour string as the colour picker produces it: [#] followed by
    exactly six hexadecimal digits. *)
Definition is_hex (c : ascii) : bool :=
  match digit_val c with Some d => (d <? 16)%Z | None => false end.

Definition wellformed_color (s : string) : bool :=
  match s with
  | String "#" (String c1 (String c2 (String c3 (String c4 (String c5
      (String c6 EmptyString)))))) =>
      is_hex c1 && is_hex c2 && is_hex c3 && is_hex c4 && is_hex c5 && is_hex c6
  | _ => false
  end.

Definition hex_digits : list ascii :=
  list_ascii_of_string "0123456789abcdefABCDEF".

(** An integer channel between 0 and 255. *)
Definition is_channel (x : num) : Prop :=
  exists z : Z, (0 <= z <= 255)%Z /\ x = int z.

(** The rational a finite number stands for (zero otherwise). *)
Definition val (x : num) : Q :=
  match x with Fin q => this q | _ => 0%Q end.

(** A finite number between two rationals. *)
Definition in_range (lo hi : Q) (x : num) : Prop :=
  exists q : Qc, x = Fin q /\ (lo <= q)%Q /\ (q <= hi)%Q.

(** Recognisers for calls. *)
Definition is_save (o : op) : bool :=
  match o with save _ => true | _ => false end.

Definition is_addPage (o : op) : bool :=
  match o with addPage => true | _ => false end.

Definition is_FD_rect (o : op) : bool :=
  match o with rect _ _ _ _ style => String.eqb style "FD" | _ => false end.

Definition is_fill_rect (o : op) : bool :=
  match o with rect _ _ _ _ style => String.eqb style "F" | _ => false end.

Definition is_text (o : op) : bool :=
  match o with text _ _ _ _ => true | _ => false end.

Definition no_addPage (l : list op) : bool :=
  forallb (fun o => negb (is_addPage o)) l.

(** The label centred on an overlap strip of the flattened view. *)
Definition is_strip_label (o : op) : bool :=
  match o with
  | text [Lit s] _ _ (Some a) => String.eqb s "SFIDO" && String.eqb a "center"
  | _ => false
  end.

Definition text_of (o : op) : tstring :=
  match o with text t _ _ _ => t | _ => [] end.

(** A call that names the overlap in its text, in any spelling. *)
Definition mentions_sfido (o : op) : bool :=
  mentions "SFIDO" o || mentions "Sfido" o || mentions "sfido" o.

(** The fill colour of a colour string, and its lightened variant. *)
Definition rgb_of (color : string) : num * num * num :=
  (parseInt (slice color 1 3) 16, parseInt (slice color 3 5) 16,
   parseInt (slice color 5 7) 16).

Definition lighten (delta : Z) (c : num * num * num) : num * num * num :=
  let '(r, g, b) := c in
  (min 255 (r + delta), min 255 (g + delta), min 255 (b + delta)).

(** A colour string of which [parseInt] cannot read some channel. *)
Definition unreadable (color : string) : bool :=
  let '(r, g, b) := rgb_of color in isNaN r || isNaN g || isNaN b.

(** [pdf.setFillColor] of three channels. *)
Definition set_fill (c : num * num * num) : op :=
  let '(r, g, b) := c in setFillColor r g b.

(** *** Further vocabulary: calls and colours *)

Definition is_setFontSize (o : op) : bool :=
  match o with setFontSize _ => true | _ => false end.

Definition is_roundedRect (o : op) : bool :=
  match o with roundedRect _ _ _ _ _ _ _ => true | _ => false end.

(** The call that downloads the document. *)
Definition download : op := save [Lit "GeoViz_Scavo_"; IsoDate; Lit ".pdf"].

(** [Math.max(0, c - delta)] and [Math.min(255, c + delta)] on the three
    channels. *)
Definition darken (delta : Z) (c : num * num * num) : num * num * num :=
  let '(r, g, b) := c in
  (max 0 (r - delta), max 0 (g - delta), max 0 (b - delta)).

Definition brighten (delta : Z) (c : num * num * num) : num * num * num :=
  let '(r, g, b) := c in
  (min 255 (r + delta), min 255 (g + delta), min 255 (b + delta)).

Definition rgb_channels (c : num * num * num) : Prop :=
  is_channel (fst (fst c)) /\ is_channel (snd (fst c)) /\ is_channel (snd c).

(** The five faces and the four overlap bands as the isometric page
    fills them. *)
Definition face_fills (h : host) (d : Sfido.ExcavationDimensions)
  (c : Sfido.SurfaceColors) : list filled :=
  let v := Sfido.v h d in
  [ {| fill_rgb := rgb_of (Sfido.sides_long c);
       fill_path := [Sfido.vA v; Sfido.vA v; Sfido.vB v; Sfido.vF v; Sfido.vE v] |};
    {| fill_rgb := rgb_of (Sfido.sides_short c);
       fill_path := [Sfido.vA v; Sfido.vA v; Sfido.vD v; Sfido.vH v; Sfido.vE v] |};
    {| fill_rgb := rgb_of (Sfido.bottom c);
       fill_path := [Sfido.vA v; Sfido.vA v; Sfido.vB v; Sfido.vC v; Sfido.vD v] |};
    {| fill_rgb := lighten 30 (rgb_of (Sfido.sides_short c));
       fill_path := [Sfido.vB v; Sfido.vB v; Sfido.vC v; Sfido.vG v; Sfido.vF v] |};
    {| fill_rgb := lighten 20 (rgb_of (Sfido.sides_long c));
       fill_path := [Sfido.vD v; Sfido.vD v; Sfido.vC v; Sfido.vG v; Sfido.vH v] |} ].

Definition band_fills (h : host) (d : Sfido.ExcavationDimensions)
  (c : Sfido.SurfaceColors) : list filled :=
  let v := Sfido.v h d in
  let sfV := Sfido.sfV h d in
  let sf := rgb_of (Sfido.sfidoColor c) in
  [ {| fill_rgb := darken 30 sf;
       fill_path := [Sfido.vE v; Sfido.vE v; Sfido.vF v; Sfido.F_out sfV; Sfido.E_out sfV] |};
    {| fill_rgb := darken 15 sf;
       fill_path := [Sfido.vE v; Sfido.vE v; Sfido.E_side sfV; Sfido.H_side sfV; Sfido.vH v] |};
    {| fill_rgb := brighten 15 sf;
       fill_path := [Sfido.vF v; Sfido.vF v; Sfido.vG v; Sfido.G_side sfV; Sfido.F_side sfV] |};
    {| fill_rgb := sf;
       fill_path := [Sfido.vH v; Sfido.vH v; Sfido.H_out sfV; Sfido.G_out sfV; Sfido.vG v] |} ].

(** [NaN], or an integer between -15 and 255. *)
Definition channel_or_NaN (x : num) : bool :=
  match x with
  | NaN => true
  | Fin q => (Z.pos (Qden q) =? 1)%Z && (-15 <=? Qnum q)%Z && (Qnum q <=? 255)%Z
  | _ => false
  end.

Definition all_ascii : list ascii := map ascii_of_nat (seq 0 256).




(** The colour state with another overlap colour. *)
Definition with_overlap_color (c : Sfido.SurfaceColors) (s : option string)
  : Sfido.SurfaceColors :=
  {| Sfido.bottom := Sfido.bottom c; Sfido.sides_long := Sfido.sides_long c;
     Sfido.sides_short := Sfido.sides_short c; Sfido.sfido_color := s |}.

(** *** Further vocabulary: the side panel *)

Definition DimKey_eqb (a b : Sidebar.DimKey) : bool :=
  match a, b with
  | Sidebar.key_length, Sidebar.key_length
  | Sidebar.key_width, Sidebar.key_width
  | Sidebar.key_depth, Sidebar.key_depth
  | Sidebar.key_sfido, Sidebar.key_sfido => true
  | _, _ => false
  end.

(* ===================================================================== *)
(** * Properties *)
(* ===================================================================== *)

(** Closed equations between numbers, or structures of numbers, by
    evaluation: two canonical rationals are equal when their fractions
    are. *)
Ltac js_eq :=
  vm_compute;
  repeat match goal with
         | |- @eq Qc _ _ => apply Qc_is_canon; reflexivity
         | |- _ => reflexivity
         | |- _ = _ => progress f_equal
         end.

(** ** Arithmetic of [num] *)

Lemma int_0 : int 0 = Fin (Q2Qc 0).
Proof. reflexivity. Qed.

Lemma add_0_l (x : num) : 0 + x = x.
Proof. destruct x; simpl; trivial. f_equal. apply Qcplus_0_l. Qed.

Lemma add_0_r (x : num) : x + 0 = x.
Proof. destruct x; simpl; trivial. f_equal. apply Qcplus_0_r. Qed.

Lemma sub_0_r (x : num) : x - 0 = x.
Proof.
  destruct x; trivial. unfold sub; simpl. f_equal.
  change (Q2Qc (inject_Z 0)) with (Q2Qc 0). ring.
Qed.

Lemma add_comm (x y : num) : x + y = y + x.
Proof. destruct x, y; simpl; trivial. f_equal. apply Qcplus_comm. Qed.

Lemma add_assoc (x y z : num) : x + (y + z) = x + y + z.
Proof. destruct x, y, z; simpl; trivial. f_equal. apply Qcplus_assoc. Qed.

Lemma sgn_mul_comm (a b : comparison) : sgn_mul a b = sgn_mul b a.
Proof. destruct a, b; reflexivity. Qed.

Lemma mul_comm (x y : num) : x * y = y * x.
Proof.
  destruct x, y; simpl; trivial; try (f_equal; apply Qcmult_comm);
    now rewrite sgn_mul_comm.
Qed.

Lemma mul_1_l (x : num) : 1 * x = x.
Proof. destruct x; simpl; trivial. f_equal. apply Qcmult_1_l. Qed.

Lemma mul_0_l_finite (x : num) : is_finite x = true -> 0 * x = 0.
Proof.
  destruct x; simpl; try discriminate. intros _. unfold int. f_equal.
  change (Q2Qc (inject_Z 0)) with (Q2Qc 0). ring.
Qed.

Lemma add_swap_r (x y z : num) : x + y + z = x + z + y.
Proof. now rewrite <- !add_assoc, (add_comm y z). Qed.

(** ** The area model *)

Lemma Sfido_totalArea_unfold (d : Sfido.ExcavationDimensions) (c : Sfido.SurfaceColors) :
  Sfido.totalArea d c
  = Sfido.length d * Sfido.width d + Sfido.length d * Sfido.depth d * 2
    + Sfido.width d * Sfido.depth d * 2.
Proof.
  change (Sfido.totalArea d c)
    with (0 + Sfido.length d * Sfido.width d + Sfido.length d * Sfido.depth d * 2
          + Sfido.width d * Sfido.depth d * 2).
  now rewrite add_0_l.
Qed.

Lemma Base_totalArea_unfold (d : Base.ExcavationDimensions) (c : Base.SurfaceColors) :
  Base.totalArea d c
  = Base.length d * Base.width d + Base.length d * Base.depth d * 2
    + Base.width d * Base.depth d * 2.
Proof.
  change (Base.totalArea d c)
    with (0 + Base.length d * Base.width d + Base.length d * Base.depth d * 2
          + Base.width d * Base.depth d * 2).
  now rewrite add_0_l.
Qed.

(** C1. Area correctness: the three surfaces carry the areas
    [length*width], [length*depth] and [width*depth], in that order and
    under the ids [bottom], [sides_long], [sides_short], and the total
    area is [bottomArea + 2*longWallArea + 2*shortWallArea].  It holds
    for every number, so in particular for all dimensions [>= 0]; both
    revisions of the application compute the same. *)
Theorem C1_area_correctness :
  (forall (d : Sfido.ExcavationDimensions) (c : Sfido.SurfaceColors),
      let bottomArea := Sfido.length d * Sfido.width d in
      let longWallArea := Sfido.length d * Sfido.depth d in
      let shortWallArea := Sfido.width d * Sfido.depth d in
      map (fun s => (Sfido.id s, Sfido.area s)) (Sfido.surfaces d c)
      = [("bottom", bottomArea); ("sides_long", longWallArea);
         ("sides_short", shortWallArea)]
      /\ Sfido.totalArea d c = bottomArea + 2 * longWallArea + 2 * shortWallArea)
  /\ (forall (d : Base.ExcavationDimensions) (c : Base.SurfaceColors),
      let bottomArea := Base.length d * Base.width d in
      let longWallArea := Base.length d * Base.depth d in
      let shortWallArea := Base.width d * Base.depth d in
      map (fun s => (Base.id s, Base.area s)) (Base.surfaces d c)
      = [("bottom", bottomArea); ("sides_long", longWallArea);
         ("sides_short", shortWallArea)]
      /\ Base.totalArea d c = bottomArea + 2 * longWallArea + 2 * shortWallArea).
Proof.
  split; intros d c; cbv zeta; (split; [reflexivity|]).
  - rewrite Sfido_totalArea_unfold.
    now rewrite (mul_comm 2 (Sfido.length d * _)), (mul_comm 2 (Sfido.width d * _)).
  - rewrite Base_totalArea_unfold.
    now rewrite (mul_comm 2 (Base.length d * _)), (mul_comm 2 (Base.width d * _)).
Qed.

(** The standard box: 12 + 2 * 10 + 2 * 7.5 = 47 square metres. *)
Example standard_box_total :
  Sfido.totalArea (box 0) Sfido.initialColors = 47
  /\ Base.totalArea Base.initialDimensions Base.initialColors = 47.
Proof. split; js_eq. Qed.

(** C2. Overlap correctness: the overlap summary holds
    [longStripArea = length*sfido*2], [shortStripArea = width*sfido*2]
    and their sum, and the total with overlap is the total area plus
    that sum.  It holds for every number, so in particular for
    [length, width, sfido >= 0]. *)
Theorem C2_overlap_correctness (d : Sfido.ExcavationDimensions) (c : Sfido.SurfaceColors) :
  let longStripArea := Sfido.sfidoLunghe (Sfido.sfidoData d) in
  let shortStripArea := Sfido.sfidoCorte (Sfido.sfidoData d) in
  let totalStripArea := Sfido.totale (Sfido.sfidoData d) in
  longStripArea = Sfido.length d * Sfido.sfido d * 2
  /\ shortStripArea = Sfido.width d * Sfido.sfido d * 2
  /\ totalStripArea = longStripArea + shortStripArea
  /\ Sfido.sfido_width (Sfido.sfidoData d) = Sfido.sfido d
  /\ Sfido.totalAreaConSfido d c = Sfido.totalArea d c + totalStripArea.
Proof. repeat split. Qed.

(** The standard box with an overlap of 0.2 m, over exact numbers:
    1.6 + 1.2 = 2.8 square metres of strips, 49.8 in all. *)
Example overlap_box_total :
  Sfido.sfidoLunghe (Sfido.sfidoData (box (lit 0.2))) = lit 1.6
  /\ Sfido.sfidoCorte (Sfido.sfidoData (box (lit 0.2))) = lit 1.2
  /\ Sfido.totale (Sfido.sfidoData (box (lit 0.2))) = lit 2.8
  /\ Sfido.totalAreaConSfido (box (lit 0.2)) Sfido.initialColors = lit 49.8.
Proof. repeat split; js_eq. Qed.

(** Over exact numbers the formulas of the two totals are symmetric in
    length and width.  The program adds doubles, in a fixed order: see
    the next section for what that leaves of the symmetry. *)
Lemma swap_length_width_exact :
  (forall (d : Sfido.ExcavationDimensions) (c : Sfido.SurfaceColors),
      Sfido.totalArea (swap_lw d) c = Sfido.totalArea d c
      /\ Sfido.totalAreaConSfido (swap_lw d) c = Sfido.totalAreaConSfido d c)
  /\ (forall (d : Base.ExcavationDimensions) (c : Base.SurfaceColors),
      Base.totalArea (swap_lw_base d) c = Base.totalArea d c).
Proof.
  assert (S : forall d c, Sfido.totalArea (swap_lw d) c = Sfido.totalArea d c).
  { intros d c. rewrite !Sfido_totalArea_unfold. simpl.
    rewrite (mul_comm (Sfido.width d) (Sfido.length d)). apply add_swap_r. }
  split.
  - intros d c. split; [apply S|].
    unfold Sfido.totalAreaConSfido. rewrite S. f_equal.
    unfold Sfido.sfidoData. simpl. apply add_comm.
  - intros d c. rewrite !Base_totalArea_unfold. simpl.
    rewrite (mul_comm (Base.width d) (Base.length d)). apply add_swap_r.
Qed.

(** ** The area model in the doubles of the program *)



(** The same box in the doubles of the program: the short strips come
    to 1.2000000000000002 and the strips in all to 2.8000000000000003
    square metres; the total is the double nearest to 49.8. *)
Example overlap_box_total_in_doubles :
  let s := Sfido64.sfidoData (box64 40 30 25 2) in
  Sfido64.sfidoLunghe s = Double.dec 16 1
  /\ Sfido64.sfidoCorte s <> Double.dec 12 1
  /\ Sfido64.sfidoCorte s = SpecFloat.S754_finite false 5404319552844596 (-52)
  /\ Sfido64.totale s = SpecFloat.S754_finite false 6305039478318695 (-51)
  /\ Sfido64.totalAreaConSfido (box64 40 30 25 2) = Double.dec 498 1.
Proof. cbv zeta. vm_compute. repeat split; discriminate. Qed.



(** ** The isometric projector *)

Lemma toIso_origin (cx cy c s : num) :
  is_finite c = true -> is_finite s = true ->
  (cx + (0 - 0) * c, cy - 0 + (0 + 0) * s) = (cx, cy).
Proof.
  intros Hc Hs.
  now rewrite !sub_0_r, add_0_l, !mul_0_l_finite, !add_0_r.
Qed.

Lemma toIso_unit_x (cx cy c s : num) :
  (cx + (1 - 0) * c, cy - 0 + (1 + 0) * s) = (cx + c, cy + s).
Proof. now rewrite !sub_0_r, add_0_r, !mul_1_l. Qed.

(** C4. The projector computes
    [screenX = centerX + (x - z) * cos30] and
    [screenY = centerY - y + (x + z) * sin30], where [cos30] and [sin30]
    are [Math.cos] and [Math.sin] at [Math.PI / 6]; it sends [(1,0,0)]
    to [(cx + cos30, cy + sin30)] and, the two constants being finite
    numbers, [(0,0,0)] to the centre [(cx, cy)].  Both revisions. *)
Theorem C4_toIso_known_points (h : host) :
  is_finite (Math_cos h (Math_PI h / 6)) = true ->
  is_finite (Math_sin h (Math_PI h / 6)) = true ->
  let cos30 := Math_cos h (Math_PI h / 6) in
  let sin30 := Math_sin h (Math_PI h / 6) in
  (Sfido.toIso h 0 0 0 = (Sfido.isoCenterX h, Sfido.isoCenterY)
   /\ Sfido.toIso h 1 0 0
      = (Sfido.isoCenterX h + cos30, Sfido.isoCenterY + sin30)
   /\ forall x y z : num,
       Sfido.toIso h x y z
       = (Sfido.isoCenterX h + (x - z) * cos30,
          Sfido.isoCenterY - y + (x + z) * sin30))
  /\ (Base.toIso h 0 0 0 = (Base.isoCenterX h, Base.isoCenterY)
      /\ Base.toIso h 1 0 0
         = (Base.isoCenterX h + cos30, Base.isoCenterY + sin30)
      /\ forall x y z : num,
          Base.toIso h x y z
          = (Base.isoCenterX h + (x - z) * cos30,
             Base.isoCenterY - y + (x + z) * sin30)).
Proof.
  intros Hc Hs cos30 sin30.
  split; (split; [| split; [| reflexivity]]).
  - apply (toIso_origin _ _ _ _ Hc Hs).
  - apply toIso_unit_x.
  - apply (toIso_origin _ _ _ _ Hc Hs).
  - apply toIso_unit_x.
Qed.

Lemma C4_toIso_known_points_witness :
  is_finite (Math_cos a4 (Math_PI a4 / 6)) = true
  /\ is_finite (Math_sin a4 (Math_PI a4 / 6)) = true
  /\ Sfido.toIso a4 0 0 0 = (Sfido.isoCenterX a4, Sfido.isoCenterY)
  /\ Base.toIso a4 0 0 0 = (Base.isoCenterX a4, Base.isoCenterY).
Proof.
  assert (Hc : is_finite (Math_cos a4 (Math_PI a4 / 6)) = true) by reflexivity.
  assert (Hs : is_finite (Math_sin a4 (Math_PI a4 / 6)) = true) by reflexivity.
  split; [exact Hc|]. split; [exact Hs|].
  split; apply (C4_toIso_known_points a4 Hc Hs).
Defined.

(** ** Pages of the exported document *)

Lemma pages_from_no_addPage (l cur : list op) :
  no_addPage l = true -> pages_from cur l = [(rev cur ++ l)%list].
Proof.
  revert cur. induction l as [|o l IH]; intros cur H; simpl.
  - now rewrite app_nil_r.
  - simpl in H. apply andb_true_iff in H. destruct H as [Ho Hl].
    destruct o; try discriminate Ho;
      rewrite (IH _ Hl); simpl; now rewrite <- app_assoc.
Qed.

Lemma pages_from_split (l1 l2 cur : list op) :
  no_addPage l1 = true ->
  pages_from cur (l1 ++ addPage :: l2) = (rev cur ++ l1)%list :: pages_from [] l2.
Proof.
  revert cur. induction l1 as [|o l IH]; intros cur H; simpl.
  - now rewrite app_nil_r.
  - simpl in H. apply andb_true_iff in H. destruct H as [Ho Hl].
    destruct o; try discriminate Ho;
      rewrite (IH _ Hl); simpl; now rewrite <- app_assoc.
Qed.

Lemma pages_two (l1 l2 : list op) :
  no_addPage l1 = true -> no_addPage l2 = true ->
  pages (l1 ++ addPage :: l2) = [l1; l2].
Proof.
  intros H1 H2. unfold pages.
  now rewrite (pages_from_split _ _ _ H1), (pages_from_no_addPage _ _ H2).
Qed.

Lemma Sfido_exported_split (h : host) (d : Sfido.ExcavationDimensions)
  (c : Sfido.SurfaceColors) :
  Sfido.exported h d c
  = (calls (Sfido.page1 h d c) ++ addPage :: calls (Sfido.page2 h d c))%list.
Proof. reflexivity. Qed.

Lemma Base_exported_split (h : host) (d : Base.ExcavationDimensions)
  (c : Base.SurfaceColors) :
  Base.exported h d c
  = (calls (Base.page1 h d c) ++ addPage :: calls (Base.page2 h d c))%list.
Proof. reflexivity. Qed.

Lemma Sfido_page1_no_addPage h d c : no_addPage (calls (Sfido.page1 h d c)) = true.
Proof.
  unfold Sfido.page1, Sfido.page1_strips, Sfido.page1_sfido_summary.
  destruct (Sfido.sfido d >? 0), (Sfido.sSfido h d >? 2), (Sfido.sSfido h d >? 6);
    reflexivity.
Qed.

Lemma Sfido_page2_no_addPage h d c : no_addPage (calls (Sfido.page2 h d c)) = true.
Proof.
  unfold Sfido.page2, Sfido.page2_sfido, Sfido.page2_legend, Sfido.legendData.
  destruct (Sfido.sfido d >? 0); reflexivity.
Qed.

Lemma Base_page1_no_addPage h d c : no_addPage (calls (Base.page1 h d c)) = true.
Proof. reflexivity. Qed.

Lemma Base_page2_no_addPage h d c : no_addPage (calls (Base.page2 h d c)) = true.
Proof. reflexivity. Qed.

(** The calls the export issues, by page: those of the flattened view,
    one unconditional [addPage], those of the isometric view.  Whether
    all of them take effect is the matter of the next section. *)
Lemma Sfido_pages h d c :
  pages (Sfido.exported h d c)
  = [calls (Sfido.page1 h d c); calls (Sfido.page2 h d c)].
Proof.
  rewrite Sfido_exported_split.
  apply pages_two; [apply Sfido_page1_no_addPage | apply Sfido_page2_no_addPage].
Qed.

Lemma Base_pages h d c :
  pages (Base.exported h d c)
  = [calls (Base.page1 h d c); calls (Base.page2 h d c)].
Proof.
  rewrite Base_exported_split.
  apply pages_two; [apply Base_page1_no_addPage | apply Base_page2_no_addPage].
Qed.

(** ** Runs cut short by the library *)

Lemma executed_stops (l1 l2 : list op) :
  existsb rejects l1 = true -> executed (l1 ++ l2) = executed l1.
Proof.
  induction l1 as [|o l IH]; simpl; [discriminate|].
  destruct (rejects o); [reflexivity|]. simpl. intros H. f_equal. now apply IH.
Qed.


Lemma executed_keeps_out (p : op -> bool) (l : list op) :
  existsb p l = false -> existsb p (executed l) = false.
Proof.
  induction l as [|o l IH]; simpl; [reflexivity|]. intros H.
  apply orb_false_iff in H. destruct H as [Ho Hl].
  destruct (rejects o); [reflexivity|]. simpl. rewrite Ho. now apply IH.
Qed.

Lemma no_addPage_existsb (l : list op) :
  no_addPage l = true -> existsb is_addPage l = false.
Proof.
  induction l as [|o l IH]; simpl; [reflexivity|]. intros H.
  apply andb_true_iff in H. destruct H as [Ho Hl].
  destruct (is_addPage o); [discriminate|]. now apply IH.
Qed.

Lemma executed_no_addPage (l : list op) :
  no_addPage l = true -> no_addPage (executed l) = true.
Proof.
  induction l as [|o l IH]; simpl; [reflexivity|]. intros H.
  apply andb_true_iff in H. destruct H as [Ho Hl].
  destruct (rejects o); [reflexivity|]. simpl. rewrite Ho. now apply IH.
Qed.

Lemma cut_on_first_page (l1 l2 : list op) :
  no_addPage l1 = true -> existsb is_save l1 = false ->
  existsb rejects l1 = true ->
  let run := executed (l1 ++ addPage :: l2) in
  numPages run = 1%nat /\ existsb is_addPage run = false
  /\ existsb is_save run = false.
Proof.
  intros A S R run. unfold run. rewrite (executed_stops _ _ R).
  pose proof (executed_no_addPage _ A) as A'.
  split; [| split].
  - unfold numPages, pages. now rewrite (pages_from_no_addPage _ _ A').
  - now apply no_addPage_existsb.
  - now apply executed_keeps_out.
Qed.

Lemma rejected_at (n : nat) (o : op) (l : list op) :
  nth_error l n = Some o -> rejects o = true -> existsb rejects l = true.
Proof.
  intros H R. apply existsb_exists. exists o. split; [| exact R].
  now apply nth_error_In with n.
Qed.

Lemma Sfido_page1_no_save h d c : existsb is_save (calls (Sfido.page1 h d c)) = false.
Proof.
  unfold Sfido.page1, Sfido.page1_strips, Sfido.page1_sfido_summary.
  destruct (Sfido.sfido d >? 0), (Sfido.sSfido h d >? 2), (Sfido.sSfido h d >? 6);
    reflexivity.
Qed.

Lemma Base_page1_no_save h d c : existsb is_save (calls (Base.page1 h d c)) = false.
Proof. reflexivity. Qed.

(** The first rectangle of the flattened drawing and the colours of its
    faces, by their places in the sequence of calls. *)
Lemma Sfido_page1_first_calls h d c :
  let p := calls (Sfido.page1 h d c) in
  nth_error p 8 = Some (set_fill (rgb_of (Sfido.bottom c)))
  /\ nth_error p 9
     = Some (rect (Sfido.baseX h d) (Sfido.baseY h d) (Sfido.sLength h d)
               (Sfido.sWidth h d) "F")
  /\ nth_error p 19 = Some (set_fill (rgb_of (Sfido.sides_long c)))
  /\ nth_error p 41 = Some (set_fill (rgb_of (Sfido.sides_short c))).
Proof. repeat split. Qed.

Lemma Base_page1_first_calls h d c :
  let p := calls (Base.page1 h d c) in
  nth_error p 15 = Some (set_fill (rgb_of (Base.bottom c)))
  /\ nth_error p 16
     = Some (rect (Base.baseX h d) (Base.baseY h d) (Base.sLength h d)
               (Base.sWidth h d) "F")
  /\ nth_error p 29 = Some (set_fill (rgb_of (Base.sides_long c)))
  /\ nth_error p 57 = Some (set_fill (rgb_of (Base.sides_short c))).
Proof. repeat split. Qed.

(** ** Zero times an infinite scale *)

Lemma div_0_not_finite (x : num) : is_finite (x / 0) = false.
Proof.
  destruct x as [q| | |]; try reflexivity. unfold div.
  change (Qc_eq_bool (Q2Qc (inject_Z 0)) (Q2Qc 0)) with true.
  unfold sgn. destruct (Qccompare q (Q2Qc 0)); reflexivity.
Qed.

Lemma min_not_finite (x y : num) :
  is_finite x = false -> is_finite y = false -> is_finite (min x y) = false.
Proof. destruct x, y; try discriminate; reflexivity. Qed.

Lemma mul_not_finite (x k : num) : is_finite x = false -> is_finite (x * k) = false.
Proof.
  destruct x; try discriminate; intros _; destruct k as [q| | |]; try reflexivity;
    simpl; unfold sgn; destruct (Qccompare q (Q2Qc 0)); reflexivity.
Qed.

Lemma zero_mul_not_finite (x : num) : is_finite x = false -> 0 * x = NaN.
Proof. destruct x; try discriminate; reflexivity. Qed.

Lemma zero_scaled (a b k : num) : 0 * (min (a / 0) (b / 0) * k) = NaN.
Proof.
  apply zero_mul_not_finite, mul_not_finite, min_not_finite; apply div_0_not_finite.
Qed.

Lemma add_NaN_r (x : num) : x + NaN = NaN.
Proof. destruct x; reflexivity. Qed.

Lemma sub_NaN_half (x : num) : x - NaN / 2 = NaN.
Proof. destruct x; reflexivity. Qed.

Lemma Sfido_all_zero_sizes (h : host) :
  let d := Sfido.initialDimensions in
  Sfido.sLength h d = NaN /\ Sfido.sWidth h d = NaN
  /\ Sfido.baseX h d = NaN /\ Sfido.baseY h d = NaN.
Proof.
  intros d.
  assert (W : Sfido.totalLayoutWidth d = 0) by js_eq.
  assert (H : Sfido.totalLayoutHeight d = 0) by js_eq.
  assert (L : Sfido.sLength h d = NaN).
  { unfold Sfido.sLength, Sfido.scale, Sfido.scaleX, Sfido.scaleY.
    rewrite W, H. apply zero_scaled. }
  assert (L' : Sfido.sWidth h d = NaN).
  { unfold Sfido.sWidth, Sfido.scale, Sfido.scaleX, Sfido.scaleY.
    rewrite W, H. apply zero_scaled. }
  repeat split; trivial.
  - unfold Sfido.baseX. rewrite L. apply sub_NaN_half.
  - unfold Sfido.baseY. rewrite L'. apply sub_NaN_half.
Qed.

Lemma Base_all_zero_sizes (h : host) :
  Base.sLength h zero_base = NaN /\ Base.sWidth h zero_base = NaN
  /\ Base.baseX h zero_base = NaN /\ Base.baseY h zero_base = NaN.
Proof.
  assert (W : Base.totalLayoutWidth zero_base = 0) by js_eq.
  assert (H : Base.totalLayoutHeight zero_base = 0) by js_eq.
  assert (Z : forall x, x = 0 -> x * Base.scale h zero_base = NaN).
  { intros x ->. unfold Base.scale, Base.scaleX, Base.scaleY.
    rewrite W, H. apply zero_scaled. }
  assert (L : Base.sLength h zero_base = NaN) by now apply Z.
  assert (L' : Base.sWidth h zero_base = NaN) by now apply Z.
  assert (D : Base.sDepth h zero_base = NaN) by now apply Z.
  repeat split; trivial.
  - unfold Base.baseX. rewrite L. apply sub_NaN_half.
  - unfold Base.baseY. rewrite D. apply add_NaN_r.
Qed.

(** C5 fails on the code.  The call of [addPage] is unconditional, but
    with all dimensions zero (the initial state of the application with
    overlap) the export does not get to it: whatever the page and the
    colours, the first rectangle of the drawing is issued with [NaN]
    coordinates, which jsPDF rejects, so the run ends on the first page
    and nothing is saved.  The revision without overlap does the same
    at length = width = depth = 0. *)
Theorem C5_all_zero_stops_on_page_one :
  (forall h c,
      let issued := Sfido.exported h Sfido.initialDimensions c in
      nth_error issued 9 = Some (rect NaN NaN NaN NaN "F")
      /\ numPages (executed issued) = 1%nat
      /\ existsb is_addPage (executed issued) = false
      /\ existsb is_save (executed issued) = false)
  /\ (forall h c,
      let issued := Base.exported h zero_base c in
      nth_error issued 16 = Some (rect NaN NaN NaN NaN "F")
      /\ numPages (executed issued) = 1%nat
      /\ existsb is_addPage (executed issued) = false
      /\ existsb is_save (executed issued) = false).
Proof.
  split; intros h c issued.
  - assert (N : nth_error (calls (Sfido.page1 h Sfido.initialDimensions c)) 9
                = Some (rect NaN NaN NaN NaN "F")).
    { destruct (Sfido_page1_first_calls h Sfido.initialDimensions c) as (_ & R & _).
      destruct (Sfido_all_zero_sizes h) as (L & W & X & Y).
      cbv zeta in *. rewrite R, L, W, X, Y. reflexivity. }
    split.
    + unfold issued. rewrite Sfido_exported_split.
      rewrite nth_error_app1; [exact N|]. apply nth_error_Some. rewrite N. discriminate.
    + unfold issued. rewrite Sfido_exported_split. apply cut_on_first_page.
      * apply Sfido_page1_no_addPage.
      * apply Sfido_page1_no_save.
      * apply (rejected_at _ _ _ N). reflexivity.
  - assert (N : nth_error (calls (Base.page1 h zero_base c)) 16
                = Some (rect NaN NaN NaN NaN "F")).
    { destruct (Base_page1_first_calls h zero_base c) as (_ & R & _).
      destruct (Base_all_zero_sizes h) as (L & W & X & Y).
      cbv zeta in *. rewrite R, L, W, X, Y. reflexivity. }
    split.
    + unfold issued. rewrite Base_exported_split.
      rewrite nth_error_app1; [exact N|]. apply nth_error_Some. rewrite N. discriminate.
    + unfold issued. rewrite Base_exported_split. apply cut_on_first_page.
      * apply Base_page1_no_addPage.
      * apply Base_page1_no_save.
      * apply (rejected_at _ _ _ N). reflexivity.
Qed.

(** ** The face compositor *)

Lemma Sfido_page_1 h d c :
  page 1 (Sfido.exported h d c) = calls (Sfido.page2 h d c).
Proof. unfold page. now rewrite Sfido_pages. Qed.

Lemma Sfido_page_0 h d c :
  page 0 (Sfido.exported h d c) = calls (Sfido.page1 h d c).
Proof. unfold page. now rewrite Sfido_pages. Qed.

Lemma Base_page_1 h d c :
  page 1 (Base.exported h d c) = calls (Base.page2 h d c).
Proof. unfold page. now rewrite Base_pages. Qed.

Lemma Base_page_0 h d c :
  page 0 (Base.exported h d c) = calls (Base.page1 h d c).
Proof. unfold page. now rewrite Base_pages. Qed.

(** C6. On the isometric page the first five polygons filled are, in
    this order, the back long wall [A B F E], the left short wall
    [A D H E], the base [A B C D], the right short wall [B C G F] and
    the front long wall [D C G H] (each path starts with a [moveTo] to
    its first vertex).  The back and left walls and the base take the
    colours of their classes; the right wall takes the short-wall colour
    with 30 added to each channel and the front wall the long-wall
    colour with 20 added, each channel capped at 255.  The revision
    without overlap fills nothing else. *)
Theorem C6_face_order_and_shading :
  (forall h d c,
      let v := Sfido.v h d in
      firstn 5 (fills (page 1 (Sfido.exported h d c)))
      = [ {| fill_rgb := rgb_of (Sfido.sides_long c);
             fill_path := [Sfido.vA v; Sfido.vA v; Sfido.vB v; Sfido.vF v; Sfido.vE v] |};
          {| fill_rgb := rgb_of (Sfido.sides_short c);
             fill_path := [Sfido.vA v; Sfido.vA v; Sfido.vD v; Sfido.vH v; Sfido.vE v] |};
          {| fill_rgb := rgb_of (Sfido.bottom c);
             fill_path := [Sfido.vA v; Sfido.vA v; Sfido.vB v; Sfido.vC v; Sfido.vD v] |};
          {| fill_rgb := lighten 30 (rgb_of (Sfido.sides_short c));
             fill_path := [Sfido.vB v; Sfido.vB v; Sfido.vC v; Sfido.vG v; Sfido.vF v] |};
          {| fill_rgb := lighten 20 (rgb_of (Sfido.sides_long c));
             fill_path := [Sfido.vD v; Sfido.vD v; Sfido.vC v; Sfido.vG v; Sfido.vH v] |} ])
  /\ (forall h d c,
      let v := Base.vertices h d in
      fills (page 1 (Base.exported h d c))
      = [ {| fill_rgb := rgb_of (Base.sides_long c);
             fill_path := [Base.vA v; Base.vA v; Base.vB v; Base.vF v; Base.vE v] |};
          {| fill_rgb := rgb_of (Base.sides_short c);
             fill_path := [Base.vA v; Base.vA v; Base.vD v; Base.vH v; Base.vE v] |};
          {| fill_rgb := rgb_of (Base.bottom c);
             fill_path := [Base.vA v; Base.vA v; Base.vB v; Base.vC v; Base.vD v] |};
          {| fill_rgb := lighten 30 (rgb_of (Base.sides_short c));
             fill_path := [Base.vB v; Base.vB v; Base.vC v; Base.vG v; Base.vF v] |};
          {| fill_rgb := lighten 20 (rgb_of (Base.sides_long c));
             fill_path := [Base.vD v; Base.vD v; Base.vC v; Base.vG v; Base.vH v] |} ]).
Proof.
  split; intros h d c v.
  - rewrite Sfido_page_1.
    unfold Sfido.page2, Sfido.page2_sfido, Sfido.page2_legend, Sfido.legendData.
    destruct (Sfido.sfido d >? 0); reflexivity.
  - rewrite Base_page_1. reflexivity.
Qed.

(** ** Overlap strips on the flattened page *)

Lemma gtb_6_2 (x : num) : (x >? 6) = true -> (x >? 2) = true.
Proof.
  destruct x; simpl; trivial.
  destruct (Qccompare q (Q2Qc (inject_Z 6))) eqn:E6; try discriminate. intros _.
  apply Qcgt_alt in E6.
  assert (L : (Q2Qc (inject_Z 2) < q)%Qc).
  { apply Qclt_trans with (Q2Qc (inject_Z 6)); [reflexivity | exact E6]. }
  apply Qcgt_alt in L. now rewrite L.
Qed.

(** C8. With the overlap active ([sfido > 0]), the flattened page shows
    the four overlap strips (the only rectangles drawn filled and
    stroked) exactly when the scaled strip width exceeds 2, and the
    two centred "SFIDO" labels exactly when it exceeds 6. *)
Theorem C8_strip_thresholds h d c :
  (Sfido.sfido d >? 0) = true ->
  let page1 := page 0 (Sfido.exported h d c) in
  let baseX := Sfido.baseX h d in
  let baseY := Sfido.baseY h d in
  let sLength := Sfido.sLength h d in
  let sWidth := Sfido.sWidth h d in
  let sDepth := Sfido.sDepth h d in
  let sSfido := Sfido.sSfido h d in
  filter is_FD_rect page1
  = (if sSfido >? 2 then
       [ rect baseX (baseY - sDepth - sSfido) sLength sSfido "FD";
         rect baseX (baseY + sWidth + sDepth) sLength sSfido "FD";
         rect (baseX - sDepth - sSfido) baseY sSfido sWidth "FD";
         rect (baseX + sLength + sDepth) baseY sSfido sWidth "FD" ]
     else [])
  /\ filter is_strip_label page1
     = (if sSfido >? 6 then
          [ text [Lit "SFIDO"] (baseX + sLength / 2)
              (baseY - sDepth - sSfido / 2) (Some "center");
            text [Lit "SFIDO"] (baseX + sLength / 2)
              (baseY + sWidth + sDepth + sSfido / 2 + 1) (Some "center") ]
        else []).
Proof.
  intros H page1 baseX baseY sLength sWidth sDepth sSfido.
  subst page1. rewrite Sfido_page_0.
  unfold Sfido.page1, Sfido.page1_strips, Sfido.page1_sfido_summary.
  rewrite H. fold sSfido.
  destruct (sSfido >? 2) eqn:E2.
  - destruct (sSfido >? 6); split; reflexivity.
  - destruct (sSfido >? 6) eqn:E6.
    + apply gtb_6_2 in E6. congruence.
    + split; reflexivity.
Qed.

Lemma C8_strip_thresholds_witness :
  (Sfido.sfido (box (lit 0.2)) >? 0) = true
  /\ List.length (filter is_FD_rect
                    (page 0 (Sfido.exported a4 (box (lit 0.2)) Sfido.initialColors)))
     = 4%nat
  /\ filter is_strip_label
       (page 0 (Sfido.exported a4 (box (lit 0.2)) Sfido.initialColors)) = [].
Proof.
  assert (H : (Sfido.sfido (box (lit 0.2)) >? 0) = true) by reflexivity.
  split; [exact H|].
  destruct (C8_strip_thresholds a4 (box (lit 0.2)) Sfido.initialColors H) as [R L].
  rewrite R, L.
  assert (E2 : (Sfido.sSfido a4 (box (lit 0.2)) >? 2) = true) by reflexivity.
  assert (E6 : (Sfido.sSfido a4 (box (lit 0.2)) >? 6) = false) by reflexivity.
  rewrite E2, E6. split; reflexivity.
Defined.

(** ** Exports without overlap *)

(** With [sfido = 0] the page-1 total box still names the overlap. *)
Lemma C9_total_box_names_overlap :
  Sfido.sfido (box 0) = 0
  /\ filter mentions_sfido (page 0 (Sfido.exported a4 (box 0) Sfido.initialColors))
     = [ text [Lit "Superfici: "; Fixed 47 1; Lit " m² + Sfido: "; Fixed 0 1;
               Lit " m²"] 17 240 None ].
Proof. split; [reflexivity | js_eq]. Qed.

(** C9, as the code has it.  With [sfido = 0] the export draws no
    overlap strip and no strip label on the flattened page, skips the
    overlap block of the summary, fills only the five faces on the
    isometric page and lists only the three face classes in its legend.
    The one call left that names the overlap is the breakdown line of
    the page-1 total box ("Superfici: ... + Sfido: ..."), which is
    printed whatever the overlap. *)
Theorem C9_no_overlap_output h d c :
  Sfido.sfido d = 0 ->
  let doc := Sfido.exported h d c in
  filter is_FD_rect doc = []
  /\ filter is_strip_label doc = []
  /\ (forall yPos, Sfido.page1_sfido_summary h d yPos = ret yPos)
  /\ List.length (fills (page 1 doc)) = 5%nat
  /\ map Sfido.item_name (Sfido.legendData d c)
     = ["Base"; "Pareti Lunghe"; "Pareti Corte"]
  /\ List.length (filter is_fill_rect (page 1 doc)) = 3%nat
  /\ map text_of (filter mentions_sfido doc)
     = [ [Lit "Superfici: "; Fixed (Sfido.totalArea d c) 1; Lit " m² + Sfido: ";
          Fixed (Sfido.totale (Sfido.sfidoData d)) 1; Lit " m²"] ].
Proof.
  intros H doc.
  assert (G : (Sfido.sfido d >? 0) = false) by (rewrite H; reflexivity).
  subst doc. rewrite Sfido_page_1.
  unfold Sfido.exported, Sfido.handleExportPDF, Sfido.page1, Sfido.page2,
    Sfido.page1_strips, Sfido.page1_sfido_summary, Sfido.page2_sfido,
    Sfido.page2_legend, Sfido.legendData.
  rewrite G. repeat split.
Qed.

Lemma C9_no_overlap_output_witness :
  Sfido.sfido (box 0) = 0
  /\ filter is_FD_rect (Sfido.exported a4 (box 0) Sfido.initialColors) = []
  /\ filter is_strip_label (Sfido.exported a4 (box 0) Sfido.initialColors) = [].
Proof.
  assert (H : Sfido.sfido (box 0) = 0) by reflexivity.
  split; [exact H|].
  split; apply (C9_no_overlap_output a4 (box 0) Sfido.initialColors H).
Defined.

(** ** Colour strings *)

Lemma is_hex_cases (a : ascii) : is_hex a = true -> In a hex_digits.
Proof.
  destruct a as [[] [] [] [] [] [] [] []]; intros H;
    try discriminate H; simpl; tauto.
Qed.

Lemma parseInt_hex_pair (a b : ascii) :
  is_hex a = true -> is_hex b = true ->
  is_channel (parseInt (String a (String b EmptyString)) 16).
Proof.
  intros Ha Hb. apply is_hex_cases in Ha. apply is_hex_cases in Hb.
  unfold is_channel.
  simpl in Ha, Hb.
  repeat (destruct Ha as [<- | Ha]; [|]); try contradiction;
    repeat (destruct Hb as [<- | Hb]; [|]); try contradiction;
    (eexists; split; [| reflexivity]; vm_compute; split; discriminate).
Qed.

Lemma wellformed_color_inv (s : string) :
  wellformed_color s = true ->
  exists c1 c2 c3 c4 c5 c6,
    s = String "#" (String c1 (String c2 (String c3 (String c4 (String c5
          (String c6 EmptyString))))))
    /\ is_hex c1 = true /\ is_hex c2 = true /\ is_hex c3 = true
    /\ is_hex c4 = true /\ is_hex c5 = true /\ is_hex c6 = true.
Proof.
  intros H. destruct s as [|a s]; [discriminate H|].
  destruct a as [[] [] [] [] [] [] [] []]; try discriminate H.
  destruct s as [|c1 [|c2 [|c3 [|c4 [|c5 [|c6 [|c7 s]]]]]]]; try discriminate H.
  simpl in H.
  repeat (apply andb_true_iff in H; destruct H as [H ?]).
  exists c1, c2, c3, c4, c5, c6. repeat split; assumption.
Qed.

Lemma rgb_of_wellformed (s : string) :
  wellformed_color s = true ->
  is_channel (fst (fst (rgb_of s))) /\ is_channel (snd (fst (rgb_of s)))
  /\ is_channel (snd (rgb_of s)).
Proof.
  intros H. apply wellformed_color_inv in H.
  destruct H as (c1 & c2 & c3 & c4 & c5 & c6 & -> & H1 & H2 & H3 & H4 & H5 & H6).
  repeat split; apply parseInt_hex_pair; assumption.
Qed.

Lemma unreadable_rejected (s : string) :
  unreadable s = true -> rejects (set_fill (rgb_of s)) = true.
Proof.
  unfold unreadable, set_fill. destruct (rgb_of s) as [[r g] b].
  unfold rejects. simpl. destruct (isNaN r), (isNaN g), (isNaN b); trivial.
Qed.






(** ** The scale of the flattened layout *)

(** C3 fails on the code.  With all dimensions zero (the initial state
    of the application with overlap) both raw extents of the layout are
    zero, both divisions give [Infinity], so does the scale, and the
    scaled sizes [0 * Infinity] are [NaN]: the first rectangle of the
    page is drawn at [NaN] coordinates.  The revision without overlap
    does the same at length = width = depth = 0. *)
Theorem C3_all_zero_gives_NaN :
  let d := Sfido.initialDimensions in
  let doc := Sfido.exported a4 d Sfido.initialColors in
  (Sfido.totalLayoutWidth d = 0 /\ Sfido.totalLayoutHeight d = 0
   /\ Sfido.scaleX a4 d = PInf /\ Sfido.scaleY d = PInf
   /\ Sfido.scale a4 d = PInf
   /\ Sfido.sLength a4 d = NaN /\ Sfido.sWidth a4 d = NaN
   /\ Sfido.baseX a4 d = NaN /\ Sfido.baseY a4 d = NaN
   /\ nth 9 doc fill = rect NaN NaN NaN NaN "F"
   /\ forallb coords_finite (page 0 doc) = false)
  /\ (Base.scale a4 zero_base = PInf
      /\ Base.sLength a4 zero_base = NaN
      /\ In (rect NaN NaN NaN NaN "F")
           (page 0 (Base.exported a4 zero_base Base.initialColors))
      /\ forallb coords_finite
           (page 0 (Base.exported a4 zero_base Base.initialColors)) = false).
Proof.
  cbv zeta. repeat split; try solve [js_eq].
  rewrite Base_page_0. vm_compute.
  repeat (first [left; reflexivity | right]).
Qed.

(* ===================================================================== *)
(** * Further properties of the code *)
(* ===================================================================== *)

(** ** Finite numbers, read in the rationals *)

Lemma Qc_eq_bool_false (q : Qc) : ~ (this q == 0)%Q -> Qc_eq_bool q (Q2Qc 0) = false.
Proof.
  intros H. destruct (Qc_eq_bool q (Q2Qc 0)) eqn:E; trivial.
  apply Qc_eq_bool_correct in E. subst q. exfalso. apply H. reflexivity.
Qed.

Lemma val_div x y : is_finite x = true -> is_finite y = true -> ~ (val y == 0)%Q ->
  is_finite (x / y) = true /\ (val (x / y) == val x / val y)%Q.
Proof.
  destruct x as [a| | |], y as [b| | |]; try discriminate. intros _ _ H. simpl in H.
  unfold div. rewrite (Qc_eq_bool_false b H). split; [reflexivity|].
  change (Qred (this a * Qred (/ this b)) == this a / this b)%Q.
  rewrite !Qred_correct. reflexivity.
Qed.

Lemma val_int z : is_finite (int z) = true /\ (val (int z) == inject_Z z)%Q.
Proof. split; [reflexivity|]. apply Qred_correct. Qed.

Lemma gtb_finite x y : is_finite x = true -> is_finite y = true ->
  (x >? y) = true <-> (val y < val x)%Q.
Proof.
  destruct x as [a| | |], y as [b| | |]; try discriminate. intros _ _.
  unfold gtb, val.
  destruct (Qccompare a b) eqn:E; split; intros H; try discriminate; trivial.
  - apply Qceq_alt in E. subst. exfalso. apply (Qlt_irrefl _ H).
  - apply Qclt_alt in E. unfold Qclt in E. exfalso. apply (Qlt_irrefl b).
    now apply Qlt_trans with a.
  - apply Qcgt_alt in E. exact E.
Qed.

Lemma gtb_Fin_true (a b : Qc) : (Fin a >? Fin b) = true -> (b < a)%Q.
Proof. intros H. now apply (gtb_finite (Fin a) (Fin b) eq_refl eq_refl). Qed.

Lemma fin_div_int x z : z <> 0%Z -> is_finite x = true -> is_finite (x / int z) = true.
Proof.
  intros Hz Fx. apply val_div; trivial. destruct (val_int z) as [_ ->].
  intros E. apply Hz. unfold inject_Z, Qeq in E. simpl in E. lia.
Qed.

Lemma add_Fin a b : Fin a + Fin b = Fin (a + b)%Qc.
Proof. reflexivity. Qed.

Lemma sub_Fin a b : Fin a - Fin b = Fin (a - b)%Qc.
Proof. reflexivity. Qed.


(** ** Label sizes *)

Lemma in_range_lo (ql qh : Qc) : (ql <= qh)%Q -> in_range ql qh (Fin ql).
Proof. intros H. exists ql. split; [reflexivity|]. split; [apply Qle_refl | exact H]. Qed.

Lemma in_range_hi (ql qh : Qc) : (ql <= qh)%Q -> in_range ql qh (Fin qh).
Proof. intros H. exists qh. split; [reflexivity|]. split; [exact H | apply Qle_refl]. Qed.

(** [Math.min(hi, Math.max(lo, z))] keeps any number but [NaN] between
    [lo] and [hi]. *)
Lemma clamp_range (ql qh : Qc) (z : num) :
  (ql <= qh)%Q -> isNaN z = false ->
  in_range ql qh (min (Fin qh) (max (Fin ql) z)).
Proof.
  intros L N. destruct z as [q| | |]; try discriminate.
  - unfold max. destruct (Fin q >? Fin ql) eqn:E1.
    + apply gtb_Fin_true in E1. unfold min. destruct (Fin qh >? Fin q) eqn:E2.
      * apply gtb_Fin_true in E2. exists q. split; [reflexivity|].
        split; now apply Qlt_le_weak.
      * now apply in_range_hi.
    + unfold min. destruct (Fin qh >? Fin ql) eqn:E2.
      * now apply in_range_lo.
      * now apply in_range_hi.
  - change (min (Fin qh) (max (Fin ql) PInf)) with (Fin qh). now apply in_range_hi.
  - change (max (Fin ql) NInf) with (Fin ql). unfold min.
    destruct (Fin qh >? Fin ql); [now apply in_range_lo | now apply in_range_hi].
Qed.

Lemma min_not_NaN (x y : num) :
  isNaN x = false -> isNaN y = false -> isNaN (min x y) = false.
Proof.
  destruct x, y; try discriminate; intros _ _; unfold min; try reflexivity;
    match goal with |- context [if ?b then _ else _] => destruct b end; reflexivity.
Qed.

Lemma Qccompare_pos (q : Q) : (0 < q)%Q -> Qccompare (Q2Qc q) (Q2Qc 0) = Gt.
Proof.
  intros H. apply Qcgt_alt. unfold Qclt. cbn [this Q2Qc]. now rewrite !Qred_correct.
Qed.

Lemma div_int_not_NaN (x : num) (z : Z) :
  (0 < z)%Z -> isNaN x = false -> isNaN (x / int z) = false.
Proof.
  intros Hz N.
  assert (E : Qccompare (Q2Qc (inject_Z z)) (Q2Qc 0) = Gt).
  { apply Qccompare_pos. unfold Qlt, inject_Z; simpl. lia. }
  destruct x as [q| | |]; try discriminate.
  - assert (F : is_finite (Fin q / int z) = true) by (apply fin_div_int; [lia | reflexivity]).
    destruct (Fin q / int z); try discriminate; reflexivity.
  - unfold div, int. now rewrite E.
  - unfold div, int. now rewrite E.
Qed.

Lemma mul_lit_not_NaN (x : num) (q : Q) :
  (0 < q)%Q -> isNaN x = false -> isNaN (x * lit q) = false.
Proof.
  intros Hq N. pose proof (Qccompare_pos q Hq) as E.
  destruct x as [a| | |]; try discriminate; try reflexivity;
    unfold mul, lit, sgn, sgn_mul; now rewrite E.
Qed.

(** X5. Whatever the size of the rectangle (zero and infinite included,
    [NaN] excluded), [drawSurface] sets a label font size between 5 and 9
    and then 1.2 times that for the area; in the revision without
    overlap between 6 and 10, then 1.3 and 0.7 times that. *)
Theorem X5_drawSurface_font_sizes (x y w h : num) (color label : string) (area : num)
  (dims : tstring) :
  isNaN w = false -> isNaN h = false ->
  (exists fs, in_range 5 9 fs
     /\ filter is_setFontSize (calls (Sfido.drawSurface x y w h color label area))
        = [setFontSize fs; setFontSize (fs * lit 1.2)])
  /\ (exists fs, in_range 6 10 fs
        /\ filter is_setFontSize (calls (Base.drawSurface x y w h color label area dims))
           = [setFontSize fs; setFontSize (fs * lit 1.3); setFontSize (fs * lit 0.7)]).
Proof.
  intros Nw Nh. split.
  - exists (min 9 (max 5 (min w h / 5))). split; [| reflexivity].
    apply (clamp_range (Q2Qc 5) (Q2Qc 9)); [discriminate|].
    apply div_int_not_NaN; [lia|]. now apply min_not_NaN.
  - exists (min 10 (max 6 (min w h / 4))). split; [| reflexivity].
    apply (clamp_range (Q2Qc 6) (Q2Qc 10)); [discriminate|].
    apply div_int_not_NaN; [lia|]. now apply min_not_NaN.
Qed.

Lemma X5_drawSurface_font_sizes_witness :
  exists fs, in_range 5 9 fs
    /\ filter is_setFontSize (calls (Sfido.drawSurface 0 0 0 PInf "#3b82f6" "BASE" 0))
       = [setFontSize fs; setFontSize (fs * lit 1.2)].
Proof.
  apply (X5_drawSurface_font_sizes 0 0 0 PInf "#3b82f6" "BASE" 0 []); reflexivity.
Defined.

(** X6. The 3D labels: [getFontSize] of any area but [NaN] lies between
    0.15 and 0.35. *)
Theorem X6_getFontSize_range (area : num) :
  isNaN area = false -> in_range 0.15 0.35 (ExcavationModel.getFontSize area).
Proof.
  intros N. unfold ExcavationModel.getFontSize.
  pose proof (clamp_range (Q2Qc 0.15) (Q2Qc 0.35) (area * lit 0.025)) as C.
  destruct C as (q & E & L1 & L2);
    [discriminate | apply mul_lit_not_NaN; [reflexivity | exact N] |].
  exists q. split; [exact E|]. split.
  - eapply Qle_trans; [| exact L1]. discriminate.
  - eapply Qle_trans; [exact L2 |]. discriminate.
Qed.

Lemma X6_getFontSize_range_witness :
  in_range 0.15 0.35 (ExcavationModel.getFontSize 12)
  /\ in_range 0.15 0.35 (ExcavationModel.getFontSize PInf).
Proof. split; apply X6_getFontSize_range; reflexivity. Defined.

(** ** Overlap bands and totals *)

Lemma Sfido_page2_fills h d c :
  fills (page 1 (Sfido.exported h d c))
  = (face_fills h d c ++ (if Sfido.sfido d >? 0 then band_fills h d c else []))%list.
Proof.
  rewrite Sfido_page_1.
  unfold Sfido.page2, Sfido.page2_sfido, Sfido.page2_legend, Sfido.legendData.
  destruct (Sfido.sfido d >? 0); reflexivity.
Qed.

(** X7. With [sfido > 0] the isometric page fills, after the five faces,
    the four overlap bands: back (the overlap colour less 30 per channel,
    not below 0), left (less 15), right (plus 15, not above 255), front
    (the colour itself); and it does so whatever the scaled width of the
    strips, also when the flattened page leaves them out as too thin. *)
Theorem X7_page2_overlap_bands h d c :
  (Sfido.sfido d >? 0) = true ->
  let v := Sfido.v h d in
  let sfV := Sfido.sfV h d in
  let sf := rgb_of (Sfido.sfidoColor c) in
  skipn 5 (fills (page 1 (Sfido.exported h d c)))
  = [ {| fill_rgb := darken 30 sf;
         fill_path := [Sfido.vE v; Sfido.vE v; Sfido.vF v; Sfido.F_out sfV; Sfido.E_out sfV] |};
      {| fill_rgb := darken 15 sf;
         fill_path := [Sfido.vE v; Sfido.vE v; Sfido.E_side sfV; Sfido.H_side sfV; Sfido.vH v] |};
      {| fill_rgb := brighten 15 sf;
         fill_path := [Sfido.vF v; Sfido.vF v; Sfido.vG v; Sfido.G_side sfV; Sfido.F_side sfV] |};
      {| fill_rgb := sf;
         fill_path := [Sfido.vH v; Sfido.vH v; Sfido.H_out sfV; Sfido.G_out sfV; Sfido.vG v] |} ].
Proof.
  intros H v sfV sf. rewrite Sfido_page2_fills, H. reflexivity.
Qed.

Lemma X7_page2_overlap_bands_witness :
  (Sfido.sfido (box (lit 0.01)) >? 0) = true
  /\ filter is_FD_rect (page 0 (Sfido.exported a4 (box (lit 0.01)) Sfido.initialColors)) = []
  /\ List.length (skipn 5 (fills (page 1
        (Sfido.exported a4 (box (lit 0.01)) Sfido.initialColors)))) = 4%nat.
Proof.
  assert (H : (Sfido.sfido (box (lit 0.01)) >? 0) = true) by reflexivity.
  split; [exact H|]. split; [vm_compute; reflexivity|].
  rewrite (X7_page2_overlap_bands a4 (box (lit 0.01)) Sfido.initialColors H).
  reflexivity.
Defined.


Lemma mul_0_r_finite (x : num) : is_finite x = true -> x * 0 = 0.
Proof. intros F. rewrite mul_comm. now apply mul_0_l_finite. Qed.


(** X9. Without overlap ([sfido = 0]) and with finite length and width,
    the strips total is zero and the total with overlap is the total
    area. *)
Theorem X9_no_overlap_totals_agree d c :
  Sfido.sfido d = 0 ->
  is_finite (Sfido.length d) = true -> is_finite (Sfido.width d) = true ->
  Sfido.totale (Sfido.sfidoData d) = 0
  /\ Sfido.totalAreaConSfido d c = Sfido.totalArea d c.
Proof.
  intros H Fl Fw.
  assert (T : Sfido.totale (Sfido.sfidoData d) = 0).
  { unfold Sfido.sfidoData. cbn [Sfido.totale]. rewrite H.
    rewrite !mul_0_r_finite by assumption.
    rewrite (mul_0_l_finite 2 eq_refl). apply add_0_l. }
  split; [exact T|]. unfold Sfido.totalAreaConSfido. rewrite T. apply add_0_r.
Qed.

Lemma X9_no_overlap_totals_agree_witness :
  Sfido.totalAreaConSfido (box 0) Sfido.initialColors
  = Sfido.totalArea (box 0) Sfido.initialColors.
Proof. apply (X9_no_overlap_totals_agree (box 0)); reflexivity. Defined.

(** ** The shape of the document *)

Lemma executed_saved (l : list op) (o : op) :
  existsb is_save l = false -> rejects o = false -> is_save o = true ->
  existsb is_save (executed (l ++ [o])) = negb (existsb rejects (l ++ [o])).
Proof.
  intros N R S. induction l as [|a l IH]; simpl.
  - rewrite R. simpl. now rewrite S.
  - simpl in N. apply orb_false_iff in N. destruct N as [Na Nl].
    destruct (rejects a); [reflexivity|]. simpl. rewrite Na. now apply IH.
Qed.

Lemma Sfido_ends_with_save h d c :
  exists l, Sfido.exported h d c = (l ++ [download])%list /\ existsb is_save l = false.
Proof.
  exists (removelast (Sfido.exported h d c)).
  assert (E : last (Sfido.exported h d c) fill = download
              /\ existsb is_save (removelast (Sfido.exported h d c)) = false
              /\ Sfido.exported h d c <> []).
  { unfold Sfido.exported, Sfido.handleExportPDF, Sfido.page1, Sfido.page2,
      Sfido.page1_strips, Sfido.page1_sfido_summary, Sfido.page2_sfido,
      Sfido.page2_legend, Sfido.legendData.
    destruct (Sfido.sfido d >? 0), (Sfido.sSfido h d >? 2), (Sfido.sSfido h d >? 6);
      (split; [reflexivity | split; [reflexivity | discriminate]]). }
  destruct E as (E1 & E2 & E3). split; [| exact E2].
  rewrite <- E1. now apply app_removelast_last.
Qed.

Lemma Base_ends_with_save h d c :
  exists l, Base.exported h d c = (l ++ [download])%list /\ existsb is_save l = false.
Proof.
  exists (removelast (Base.exported h d c)).
  assert (E : last (Base.exported h d c) fill = download
              /\ existsb is_save (removelast (Base.exported h d c)) = false
              /\ Base.exported h d c <> []).
  { split; [reflexivity | split; [reflexivity | discriminate]]. }
  destruct E as (E1 & E2 & E3). split; [| exact E2].
  rewrite <- E1. now apply app_removelast_last.
Qed.

(** X10. [pdf.save] of "GeoViz_Scavo_" + ISO date + ".pdf" is the last
    call the export issues and occurs nowhere before: nothing is drawn
    after the download, and a run that a rejected call cuts short has
    saved nothing.  The file is saved exactly when jsPDF rejected no
    call.  Both revisions. *)
Theorem X10_saved_only_when_nothing_was_rejected :
  (forall h d c,
      (exists l, Sfido.exported h d c = (l ++ [download])%list
                 /\ existsb is_save l = false)
      /\ existsb is_save (executed (Sfido.exported h d c))
         = negb (existsb rejects (Sfido.exported h d c)))
  /\ (forall h d c,
      (exists l, Base.exported h d c = (l ++ [download])%list
                 /\ existsb is_save l = false)
      /\ existsb is_save (executed (Base.exported h d c))
         = negb (existsb rejects (Base.exported h d c))).
Proof.
  split; intros h d c.
  - destruct (Sfido_ends_with_save h d c) as (l & E & N).
    split; [now exists l|]. rewrite E. now apply executed_saved.
  - destruct (Base_ends_with_save h d c) as (l & E & N).
    split; [now exists l|]. rewrite E. now apply executed_saved.
Qed.

(** X11. On the flattened page the running [yPos] does not depend on
    the dimensions: the total box (the only rounded rectangle) sits at
    x = 12 and y = 234, or y = 256 when the overlap block precedes it,
    16 high and as wide as the page less the margins. *)
Theorem X11_total_box_position h d c :
  filter is_roundedRect (page 0 (Sfido.exported h d c))
  = [ roundedRect 12 (if Sfido.sfido d >? 0 then 256 else 234)
        (pageWidth h - 12 * 2) 16 2 2 "F" ].
Proof.
  assert (Y0 : Sfido.centerY + Sfido.drawAreaHeight / 2 + 10 + 6 + 6 + 5 + 5 + 5 + 4 + 8
               = 234) by js_eq.
  assert (Y1 : Sfido.centerY + Sfido.drawAreaHeight / 2 + 10 + 6 + 6 + 5 + 5 + 5 + 4 + 8 + 22
               = 256) by js_eq.
  rewrite Sfido_page_0. rewrite <- Y0, <- Y1.
  unfold Sfido.page1, Sfido.page1_strips, Sfido.page1_sfido_summary.
  destruct (Sfido.sfido d >? 0), (Sfido.sSfido h d >? 2), (Sfido.sSfido h d >? 6);
    reflexivity.
Qed.

(** ** The side panel *)

Lemma or_zero_not_NaN (x : num) : isNaN (Sidebar.or_zero x) = false.
Proof.
  destruct x as [q| | |]; try reflexivity. unfold Sidebar.or_zero.
  destruct (Qc_eq_bool q (Q2Qc 0)); reflexivity.
Qed.

Lemma or_zero_cases (x : num) : Sidebar.or_zero x = x \/ Sidebar.or_zero x = 0.
Proof.
  destruct x as [q| | |]; try (now left); [| now right]. unfold Sidebar.or_zero.
  destruct (Qc_eq_bool q (Q2Qc 0)); [now right | now left].
Qed.

(** X14. Editing a dimension never stores [NaN]: whatever [parseFloat]
    makes of the text, the edited entry becomes that number or 0 (0 for
    [NaN], as for an empty or unreadable text), a number above zero or
    below zero is stored as it is (no sign or range check is applied),
    and the other three entries are left as they were. *)
Theorem X14_handleDimChange_stores_a_number (parseFloat : string -> num)
  (d : Sfido.ExcavationDimensions) (key : Sidebar.DimKey) (value : string) :
  let d' := Sidebar.handleDimChange parseFloat d key value in
  isNaN (Sidebar.get key d') = false
  /\ (Sidebar.get key d' = parseFloat value \/ Sidebar.get key d' = int 0)
  /\ (Sidebar.get key d' >? 0) = (parseFloat value >? 0)
  /\ (0 >? Sidebar.get key d') = (0 >? parseFloat value)
  /\ forall k, Sidebar.get k d'
               = if DimKey_eqb k key then Sidebar.get key d' else Sidebar.get k d.
Proof.
  cbv zeta. unfold Sidebar.handleDimChange.
  assert (G : forall x, Sidebar.get key (Sidebar.set key x d) = x)
    by (destruct key; reflexivity).
  rewrite G. split; [apply or_zero_not_NaN|]. split; [apply or_zero_cases|].
  split; [| split].
  - destruct (parseFloat value) as [q| | |]; try reflexivity. unfold Sidebar.or_zero.
    destruct (Qc_eq_bool q (Q2Qc 0)) eqn:E; [| reflexivity].
    apply Qc_eq_bool_correct in E. now subst q.
  - destruct (parseFloat value) as [q| | |]; try reflexivity. unfold Sidebar.or_zero.
    destruct (Qc_eq_bool q (Q2Qc 0)) eqn:E; [| reflexivity].
    apply Qc_eq_bool_correct in E. now subst q.
  - intros k. destruct k, key; reflexivity.
Qed.

(** ** The 3D model *)

(** X15. Whatever the dimensions and colours, the three lookups by id
    that the 3D model makes in the list of surfaces succeed, and find
    the areas [length*width], [length*depth], [width*depth] with the
    colours of their classes. *)
Theorem X15_find_surface_always_succeeds (d : Base.ExcavationDimensions)
  (c : Base.SurfaceColors) :
  let found id :=
    option_map (fun s => (Base.area s, Base.color s))
      (ExcavationModel.find_surface id (Base.surfaces d c)) in
  found "bottom" = Some (Base.length d * Base.width d, Base.bottom c)
  /\ found "sides_long" = Some (Base.length d * Base.depth d, Base.sides_long c)
  /\ found "sides_short" = Some (Base.width d * Base.depth d, Base.sides_short c)
  /\ found "sfido" = None.
Proof. repeat split. Qed.

(** ** Colour channels *)

Lemma in_all_ascii (a : ascii) : In a all_ascii.
Proof.
  unfold all_ascii. rewrite <- (ascii_nat_embedding a).
  apply in_map, in_seq. pose proof (nat_ascii_bounded a). lia.
Qed.

Lemma parseInt_two_chars_checked :
  forallb (fun a => forallb (fun b =>
    channel_or_NaN (parseInt (String a (String b EmptyString)) 16)) all_ascii) all_ascii
  = true.
Proof. vm_compute. reflexivity. Qed.

Lemma parseInt_one_char_checked :
  forallb (fun a => channel_or_NaN (parseInt (String a EmptyString) 16)) all_ascii = true.
Proof. vm_compute. reflexivity. Qed.

Lemma substring_2_shape (s : string) (i : nat) :
  substring i 2 s = EmptyString
  \/ (exists a, substring i 2 s = String a EmptyString)
  \/ (exists a b, substring i 2 s = String a (String b EmptyString)).
Proof.
  revert s. induction i as [|i IH]; intros s.
  - destruct s as [|a [|b s]]; cbn.
    + now left.
    + right; left. now exists a.
    + right; right. exists a, b. destruct s; reflexivity.
  - destruct s as [|a s]; cbn; [now left | apply IH].
Qed.

Lemma channel_or_NaN_spec (x : num) :
  channel_or_NaN x = true ->
  x = NaN \/ exists z : Z, (-15 <= z <= 255)%Z /\ x = int z.
Proof.
  destruct x as [q| | |]; try discriminate; [| now left].
  intros H. right. unfold channel_or_NaN in H.
  apply andb_true_iff in H. destruct H as [H H3].
  apply andb_true_iff in H. destruct H as [H1 H2].
  exists (Qnum q). split; [lia|]. unfold int. f_equal. apply Qc_is_canon.
  cbn [this Q2Qc]. rewrite Qred_correct.
  destruct q as [[n dn] Hc]. cbn [this Qnum Qden] in *.
  apply Z.eqb_eq in H1. injection H1 as ->. reflexivity.
Qed.

(** X18. Whatever string stands for a colour (any length, any
    characters) each channel the code reads from it,
    [parseInt(color.slice(i, i + 2), 16)], is [NaN] or an integer between
    -15 and 255: never an infinity, never a fraction, never above 255. *)
Theorem X18_channel_of_any_string (s : string) (i : nat) :
  parseInt (slice s i (i + 2)) 16 = NaN
  \/ exists z : Z, (-15 <= z <= 255)%Z /\ parseInt (slice s i (i + 2)) 16 = int z.
Proof.
  apply channel_or_NaN_spec.
  unfold slice. replace (i + 2 - i)%nat with 2%nat by lia.
  destruct (substring_2_shape s i) as [-> | [(a & ->) | (a & b & ->)]].
  - reflexivity.
  - pose proof parseInt_one_char_checked as H.
    rewrite forallb_forall in H. apply H, in_all_ascii.
  - pose proof parseInt_two_chars_checked as H.
    rewrite forallb_forall in H. specialize (H a (in_all_ascii a)).
    rewrite forallb_forall in H. apply H, in_all_ascii.
Qed.

(** The lower bound is reached: a sign is read as part of the number. *)
Example channel_minus_15 : parseInt (slice "#-f0000" 1 3) 16 = int (-15).
Proof. reflexivity. Qed.

Lemma int_add (a b : Z) : int a + int b = int (a + b).
Proof.
  unfold int. rewrite add_Fin. f_equal. apply Qc_is_canon.
  unfold Qcplus. cbn [this Q2Qc]. rewrite !Qred_correct. now rewrite inject_Z_plus.
Qed.

Lemma int_sub (a b : Z) : int a - int b = int (a - b).
Proof.
  unfold int. rewrite sub_Fin. f_equal. apply Qc_is_canon.
  unfold Qcminus, Qcplus, Qcopp. cbn [this Q2Qc]. rewrite !Qred_correct.
  unfold Z.sub. now rewrite inject_Z_plus, inject_Z_opp.
Qed.

Lemma gtb_int (a b : Z) : (int a >? int b) = (b <? a)%Z.
Proof.
  destruct (b <? a)%Z eqn:E.
  - apply (gtb_finite (int a) (int b) eq_refl eq_refl).
    destruct (val_int a) as [_ ->], (val_int b) as [_ ->].
    rewrite <- Zlt_Qlt. now apply Z.ltb_lt.
  - destruct (int a >? int b) eqn:G; trivial.
    apply (gtb_finite (int a) (int b) eq_refl eq_refl) in G.
    destruct (val_int a) as [_ Ea], (val_int b) as [_ Eb]. rewrite Ea, Eb in G.
    rewrite <- Zlt_Qlt in G. apply Z.ltb_lt in G. congruence.
Qed.

Lemma min_int (a b : Z) : min (int a) (int b) = int (Z.min a b).
Proof.
  change (min (int a) (int b)) with (if int a >? int b then int b else int a).
  rewrite gtb_int. destruct (b <? a)%Z eqn:E.
  - apply Z.ltb_lt in E. now rewrite Z.min_r by lia.
  - apply Z.ltb_ge in E. now rewrite Z.min_l by lia.
Qed.

Lemma max_int (a b : Z) : max (int a) (int b) = int (Z.max a b).
Proof.
  change (max (int a) (int b)) with (if int b >? int a then int b else int a).
  rewrite gtb_int. destruct (a <? b)%Z eqn:E.
  - apply Z.ltb_lt in E. now rewrite Z.max_r by lia.
  - apply Z.ltb_ge in E. now rewrite Z.max_l by lia.
Qed.

Lemma channel_lighter (delta : Z) (x : num) :
  (0 <= delta)%Z -> is_channel x -> is_channel (min 255 (x + delta)).
Proof.
  intros Hd (z & Hz & ->). rewrite int_add, min_int.
  exists (Z.min 255 (z + delta)). split; [lia | reflexivity].
Qed.

Lemma channel_darker (delta : Z) (x : num) :
  (0 <= delta)%Z -> is_channel x -> is_channel (max 0 (x - delta)).
Proof.
  intros Hd (z & Hz & ->). rewrite int_sub, max_int.
  exists (Z.max 0 (z - delta)). split; [lia | reflexivity].
Qed.

Lemma lighten_channels delta c :
  (0 <= delta)%Z -> rgb_channels c -> rgb_channels (lighten delta c).
Proof.
  destruct c as [[r g] b]. intros Hd (Hr & Hg & Hb).
  repeat split; now apply channel_lighter.
Qed.

Lemma brighten_channels delta c :
  (0 <= delta)%Z -> rgb_channels c -> rgb_channels (brighten delta c).
Proof.
  destruct c as [[r g] b]. intros Hd (Hr & Hg & Hb).
  repeat split; now apply channel_lighter.
Qed.

Lemma darken_channels delta c :
  (0 <= delta)%Z -> rgb_channels c -> rgb_channels (darken delta c).
Proof.
  destruct c as [[r g] b]. intros Hd (Hr & Hg & Hb).
  repeat split; now apply channel_darker.
Qed.

(** X19. With the four colours well-formed, every polygon the isometric
    page fills (the five faces and, with overlap, the four bands) has a
    fill colour whose three channels are integers between 0 and 255:
    lightening stops at 255 and darkening at 0. *)
Theorem X19_isometric_fills_are_colours h d c :
  wellformed_color (Sfido.bottom c) = true ->
  wellformed_color (Sfido.sides_long c) = true ->
  wellformed_color (Sfido.sides_short c) = true ->
  wellformed_color (Sfido.sfidoColor c) = true ->
  Forall (fun f => rgb_channels (fill_rgb f)) (fills (page 1 (Sfido.exported h d c))).
Proof.
  intros Hb Hl Hs Hf.
  apply rgb_of_wellformed in Hb, Hl, Hs, Hf.
  pose proof (lighten_channels 30 _ ltac:(lia) Hs) as Hs30.
  pose proof (lighten_channels 20 _ ltac:(lia) Hl) as Hl20.
  pose proof (darken_channels 30 _ ltac:(lia) Hf) as Hf30.
  pose proof (darken_channels 15 _ ltac:(lia) Hf) as Hf15.
  pose proof (brighten_channels 15 _ ltac:(lia) Hf) as Hb15.
  rewrite Sfido_page2_fills. apply Forall_app. split.
  - unfold face_fills. repeat (apply Forall_cons; [cbn [fill_rgb]; assumption|]).
    apply Forall_nil.
  - destruct (Sfido.sfido d >? 0); [| apply Forall_nil].
    unfold band_fills. repeat (apply Forall_cons; [cbn [fill_rgb]; assumption|]).
    apply Forall_nil.
Qed.

Lemma X19_isometric_fills_are_colours_witness :
  Forall (fun f => rgb_channels (fill_rgb f))
    (fills (page 1 (Sfido.exported a4 (box (lit 0.2)) Sfido.initialColors))).
Proof. apply X19_isometric_fills_are_colours; reflexivity. Defined.


(** ** The overlap colour *)

(** X20. Without overlap ([sfido > 0] false: zero, negative or [NaN])
    the overlap colour is never read: the export issues the same calls
    whatever that colour is, a malformed or a missing one included. *)
Theorem X20_overlap_color_unused_without_overlap h d c s :
  (Sfido.sfido d >? 0) = false ->
  Sfido.exported h d (with_overlap_color c s) = Sfido.exported h d c.
Proof.
  intros G.
  unfold Sfido.exported, Sfido.handleExportPDF, Sfido.page1, Sfido.page2,
    Sfido.page1_strips, Sfido.page1_sfido_summary, Sfido.page2_sfido,
    Sfido.page2_legend, Sfido.legendData.
  rewrite G. reflexivity.
Qed.

Lemma X20_overlap_color_unused_without_overlap_witness :
  (Sfido.sfido (box 0) >? 0) = false
  /\ Sfido.exported a4 (box 0) (with_overlap_color Sfido.initialColors (Some "#zz"))
     = Sfido.exported a4 (box 0) Sfido.initialColors.
Proof.
  assert (G : (Sfido.sfido (box 0) >? 0) = false) by reflexivity.
  split; [exact G|].
  exact (X20_overlap_color_unused_without_overlap a4 (box 0) Sfido.initialColors
           (Some "#zz") G).
Defined.

Lemma Sfido_front_band_colour h d c :
  (Sfido.sfido d >? 0) = true ->
  nth_error (calls (Sfido.page2 h d c)) 64
  = Some (set_fill (rgb_of (Sfido.sfidoColor c))).
Proof.
  intros G. unfold Sfido.page2, Sfido.page2_sfido, Sfido.page2_legend, Sfido.legendData.
  rewrite G. reflexivity.
Qed.

(** X21. With overlap ([sfido > 0]) the overlap colour is read: when
    [parseInt] cannot read one of its channels, a call that carries it
    is rejected and nothing is saved. *)
Theorem X21_unreadable_overlap_color_stops_the_export h d c :
  (Sfido.sfido d >? 0) = true ->
  unreadable (Sfido.sfidoColor c) = true ->
  existsb rejects (Sfido.exported h d c) = true
  /\ existsb is_save (executed (Sfido.exported h d c)) = false.
Proof.
  intros G U.
  assert (R : existsb rejects (Sfido.exported h d c) = true).
  { rewrite Sfido_exported_split, existsb_app. apply orb_true_iff. right.
    simpl. apply (rejected_at _ _ _ (Sfido_front_band_colour h d c G)).
    now apply unreadable_rejected. }
  split; [exact R|].
  destruct (Sfido_ends_with_save h d c) as (l & E & N).
  rewrite E in R |- *. rewrite (executed_saved l download N eq_refl eq_refl).
  now rewrite R.
Qed.

Lemma X21_unreadable_overlap_color_stops_the_export_witness :
  let c := with_overlap_color Sfido.initialColors (Some "#zz") in
  (Sfido.sfido (box (lit 0.2)) >? 0) = true
  /\ unreadable (Sfido.sfidoColor c) = true
  /\ existsb is_save (executed (Sfido.exported a4 (box (lit 0.2)) c)) = false.
Proof.
  cbv zeta.
  assert (G : (Sfido.sfido (box (lit 0.2)) >? 0) = true) by reflexivity.
  assert (U : unreadable
                (Sfido.sfidoColor (with_overlap_color Sfido.initialColors (Some "#zz")))
              = true) by reflexivity.
  split; [exact G|]. split; [exact U|].
  exact (proj2 (X21_unreadable_overlap_color_stops_the_export a4 (box (lit 0.2))
                  (with_overlap_color Sfido.initialColors (Some "#zz")) G U)).
Defined.
